(** * regional_mom6: tercile forecast probabilities and climatological boundaries

    A shallow embedding of [mom6_process.py] (class [mom6_forecast]) and of the
    batch script [mom6_regional_tercile.py].

    Numbers.  The Python code computes on IEEE doubles through numpy, xarray
    and scipy.  Rounding is idealised away: a double is either a number or
    NaN, so an array cell is an [option] (with [None] for NaN).  What hinges
    on a computed value being exactly 0 (a deviation, a difference) is
    stated on the computed value, not on the members it comes from.  The forecast
    side needs a square root and the Gaussian distribution function, so its
    numbers are the reals [R]; the boundary builder is pure rational
    arithmetic (sums, one division, sorting, linear interpolation), so its
    numbers are the rationals [Q] and every definition there evaluates.

    Library behaviour that the source relies on (xarray reductions skip NaN,
    [std] has [ddof=0] by default, [groupby_bins(right=True)] cuts into
    left-open right-closed intervals, [idxmax] returns the first maximum,
    scipy's [cdf] is NaN unless [scale > 0], numpy's [quantile] interpolates
    linearly) is written out next to the call it serves. *)

From Stdlib Require Import Reals Lra Lia ZArith List String Ascii Bool.
From Stdlib Require Import QArith Qround Lqa DecimalString.
From Stdlib Require DecimalZ.
From Stdlib Require Import Orders Sorted Permutation Mergesort.
Import ListNotations.

(** Linear arithmetic is loaded for both number systems; each gets its own
    name. *)
Ltac lra := Lra.lra.
Ltac nra := Lra.nra.
Ltac qlra := Lqa.lra.
Ltac qnra := Lqa.nra.

(* ===================================================================== *)
(** * Python runtime: exceptions, f-strings, substring test               *)
(* ===================================================================== *)

Module Py.

(** The exceptions the modelled code can raise. *)
Inductive exn : Type :=
| UnboundLocalError   (* a local variable is read before any assignment *)
| ValueError
| KeyError.

Definition result (A : Type) : Type := (exn + A)%type.

Definition Ok {A : Type} (a : A) : result A := inr a.
Definition Raise {A : Type} (e : exn) : result A := inl e.

Definition bind {A B : Type} (r : result A) (k : A -> result B) : result B :=
  match r with
  | inl e => inl e
  | inr a => k a
  end.

(** [str(n)] for an [int]: decimal digits, a leading minus sign when
    negative, no padding. *)
Definition str (n : Z) : string := NilZero.string_of_int (Z.to_int n).

(** [needle in hay] on strings: [needle] occurs as a contiguous substring. *)
Fixpoint contains (needle hay : string) : bool :=
  String.prefix needle hay ||
  match hay with
  | EmptyString => false
  | String _ rest => contains needle rest
  end.

(** [range(start, stop, step)] for a positive step, by a count of steps. *)
Fixpoint range_from (start step : Z) (count : nat) : list Z :=
  match count with
  | O => []
  | S k => start :: range_from (start + step) step k
  end.

Definition range (start stop step : Z) : list Z :=
  range_from start step (Z.to_nat ((stop - start + step - 1) / step)).

(** [f'{n:02d}']: the decimal digits, padded with a zero to two characters;
    a minus sign counts as a character. *)
Definition format_02d (n : Z) : string :=
  let s := str n in
  if (String.length s <? 2)%nat then String "0" s else s.

(** [s[start:-back]] for [start >= 0] and [back > 0]: the characters from
    position [start] up to, and without, the last [back] ones; empty when
    the two bounds cross. *)
Definition slice_to_last (s : string) (start back : nat) : string :=
  String.substring start (String.length s - back - start) s.

End Py.

(* ===================================================================== *)
(** * File access: [xr.open_dataset] as a logged effect                   *)
(* ===================================================================== *)

Module Xr.

(** What the embedding keeps of an [xr.Dataset]: the files it was read
    from, and the value of its [init] coordinate once [.sel(init=...)] has
    been applied.  The file system is an external collaborator: opening
    and selecting are taken to succeed. *)
Record Dataset : Type := mkDataset {
  files : list string;
  init_sel : option string
}.

(** A computation that may open files and may raise: it maps the log of
    the paths opened so far to an outcome and the extended log. *)
Definition io (A : Type) : Type := list string -> Py.result A * list string.

Definition ret {A : Type} (a : A) : io A := fun log => (Py.Ok a, log).

Definition raise {A : Type} (e : Py.exn) : io A := fun log => (Py.Raise e, log).

Definition bind {A B : Type} (m : io A) (k : A -> io B) : io B :=
  fun log =>
    match m log with
    | (inl e, log') => (inl e, log')
    | (inr a, log') => k a log'
    end.

Definition open_dataset (path : string) : io Dataset :=
  fun log => (Py.Ok (mkDataset [path] None), log ++ [path]).

Definition sel_init (ds : Dataset) (label : string) : Dataset :=
  mkDataset (files ds) (Some label).

(** [xr.merge([a, b])]: the variables of both; the selection made on the
    forecast part stays. *)
Definition merge (a b : Dataset) : Dataset :=
  mkDataset (files a ++ files b)
            (match init_sel b with Some s => Some s | None => init_sel a end).

(** Reading a local variable that may not have been assigned. *)
Definition read_local {A : Type} (v : option A) : io A :=
  match v with
  | Some a => ret a
  | None => raise Py.UnboundLocalError
  end.

End Xr.

Declare Scope io_scope.
Delimit Scope io_scope with io.
Notation "x <- m ;; k" := (Xr.bind m (fun x => k))
  (at level 61, m at next level, right associativity) : io_scope.

(* ===================================================================== *)
(** * Arrays of doubles with NaN, over the reals                          *)
(* ===================================================================== *)

Module Nan.

(** The cells of an array that are numbers, in order: what a reduction
    with [skipna] sees. *)
Definition finite {A : Type} (xs : list (option A)) : list A :=
  flat_map (fun x => match x with Some v => [v] | None => [] end) xs.

Definition is_nan {A : Type} (x : option A) : bool :=
  match x with Some _ => false | None => true end.

End Nan.

Module RArr.

Local Open Scope R_scope.

(** A double: a real number, or NaN. *)
Definition fval : Type := option R.

Definition fsub (a b : fval) : fval :=
  match a, b with
  | Some x, Some y => Some (x - y)
  | _, _ => None
  end.

Definition fmul (a b : fval) : fval :=
  match a, b with
  | Some x, Some y => Some (x * y)
  | _, _ => None
  end.

Definition Rsum (xs : list R) : R := fold_right Rplus 0 xs.

(** [.mean(dim)]: the mean of the cells that are numbers; NaN when there
    is none. *)
Definition nanmean (xs : list fval) : fval :=
  match Nan.finite xs with
  | [] => None
  | ys => Some (Rsum ys / INR (List.length ys))
  end.

(** numpy's [nanvar(ddof)]: squared deviations from the mean, summed and
    divided by [n - ddof]; NaN unless [n - ddof > 0]. *)
Definition nanvar (ddof : nat) (xs : list fval) : fval :=
  match Nan.finite xs with
  | [] => None
  | ys =>
      let n := List.length ys in
      if (n <=? ddof)%nat then None
      else
        let avg := Rsum ys / INR n in
        Some (Rsum (map (fun x => (x - avg) * (x - avg)) ys) / INR (n - ddof))
  end.

Definition nanstd (ddof : nat) (xs : list fval) : fval :=
  option_map sqrt (nanvar ddof xs).

(** [.std(dim)] as the source calls it: no [ddof] argument, and xarray's
    default is [ddof=0]. *)
Definition std (xs : list fval) : fval := nanstd 0 xs.

(** [.max(dim)]: the largest cell that is a number; NaN when there is
    none. *)
Definition nanmax (xs : list fval) : fval :=
  match Nan.finite xs with
  | [] => None
  | y :: ys => Some (fold_left Rmax ys y)
  end.

(** [.idxmax(dim, fill_value=nan)] along a labelled dimension: the
    coordinate label of the largest cell; NaN cells are skipped; the scan
    keeps the current best unless a later cell is strictly larger, so the
    first of several equal maxima is returned; NaN when every cell is
    NaN. *)
Fixpoint first_max (best : Z * R) (rest : list (Z * fval)) : Z * R :=
  match rest with
  | [] => best
  | (_, None) :: t => first_max best t
  | (l, Some v) :: t =>
      if Rlt_dec (snd best) v then first_max (l, v) t else first_max best t
  end.

Fixpoint idxmax (xs : list (Z * fval)) : fval :=
  match xs with
  | [] => None
  | (_, None) :: t => idxmax t
  | (l, Some v) :: t => Some (IZR (fst (first_max (l, v) t)))
  end.

End RArr.

(* ===================================================================== *)
(** * The normal distribution of [scipy.stats.norm]                       *)
(* ===================================================================== *)

Module Gauss.

Local Open Scope R_scope.

(** The kernel of the standard normal density, [exp(-t^2/2)]. *)
Definition kernel (t : R) : R := exp (- (t * t) / 2).

Lemma kernel_continuous : continuity kernel.
Proof.
  unfold kernel. apply derivable_continuous. reg.
Qed.

Lemma kernel_integrable (a b : R) : a <= b -> Riemann_integrable kernel a b.
Proof.
  intros Hab. apply continuity_implies_RiemannInt; [exact Hab|].
  intros x _. apply kernel_continuous.
Qed.

(** The signed area of the kernel between [0] and [x]. *)
Definition kernel_area (x : R) : R :=
  match Rle_dec 0 x with
  | left H => RiemannInt (kernel_integrable 0 x H)
  | right H =>
      - RiemannInt (kernel_integrable x 0 (Rlt_le _ _ (Rnot_le_lt _ _ H)))
  end.

(** The standard normal distribution function. *)
Definition Phi (x : R) : R := 1 / 2 + kernel_area x / sqrt (2 * PI).

(** [norm(loc, scale).cdf(x)] on one cell.  scipy standardises the
    argument, [(x - loc) / scale], and writes NaN wherever [scale > 0]
    fails or the standardised argument is NaN. *)
Definition cdf (loc scale x : RArr.fval) : RArr.fval :=
  match loc, scale, x with
  | Some m, Some s, Some v =>
      if Rlt_dec 0 s then Some (Phi ((v - m) / s)) else None
  | _, _, _ => None
  end.

End Gauss.

(* ===================================================================== *)
(** * [mom6_process.py]: class [mom6_forecast], file selection            *)
(* ===================================================================== *)

Module Forecast.

Local Open Scope string_scope.

(** The attributes set by [__init__]. *)
Record mom6_forecast : Type := mk_mom6_forecast {
  var : string;
  iyear : Z;
  imonth : Z;
  source : string
}.

(** [mom6_hindcast]: the eight forecast files, [tob] first, then [tos],
    each for the initial months 3, 6, 9, 12, under [hindcast_dir]. *)
Definition forecast_file (name : string) (mon : Z) : string :=
  name ++ "_forecasts_i" ++ Py.str mon ++ ".nc".

Definition mom6_hindcast (hindcast_dir : string) : list string :=
  let tob_files := map (forecast_file "tob") (Py.range 3 13 3) in
  let tos_files := map (forecast_file "tos") (Py.range 3 13 3) in
  let hpoint_file_list := (tob_files ++ tos_files)%list in
  map (fun file => hindcast_dir ++ file) hpoint_file_list.

(** The three flags computed for each file of the list.  [iyear_flag] is
    computed and not read afterwards. *)
Definition iyear_flag (self : mom6_forecast) (file : string) : bool :=
  Py.contains ("i" ++ Py.str (iyear self)) file.

Definition imon_flag (self : mom6_forecast) (file : string) : bool :=
  Py.contains ("i" ++ Py.str (imonth self)) file.

Definition var_flag (self : mom6_forecast) (file : string) : bool :=
  Py.contains (var self) file.

Definition init_label (self : mom6_forecast) : string :=
  Py.str (iyear self) ++ "-" ++ Py.str (imonth self).

(** The body of [for file in file_list]: the local [ds] is [None] while
    unassigned; a matching file is opened and overwrites it. *)
Definition select_step (self : mom6_forecast) (ds : option Xr.Dataset)
           (file : string) : Xr.io (option Xr.Dataset) :=
  let iyear_flag := iyear_flag self file in
  let imon_flag := imon_flag self file in
  let var_flag := var_flag self file in
  if imon_flag && var_flag
  then (opened <- Xr.open_dataset file ;;
        Xr.ret (Some (Xr.sel_init opened (init_label self))))%io
  else Xr.ret ds.

Fixpoint select_loop (self : mom6_forecast) (file_list : list string)
         (ds : option Xr.Dataset) : Xr.io (option Xr.Dataset) :=
  match file_list with
  | [] => Xr.ret ds
  | file :: rest =>
      (ds' <- select_step self ds file ;; select_loop self rest ds')%io
  end.

Definition static_file : string :=
  "/Datasets.private/regional_mom6/ocean_static.nc".

(** [get_mom6]: the ['raw'] branch opens the static file first and merges
    it with [ds]; the ['regrid'] branch returns [ds]; any other [source]
    falls through both branches to [return ds]. *)
Definition get_mom6 (self : mom6_forecast) : Xr.io Xr.Dataset :=
  if String.eqb (source self) "raw" then
    let mom6_dir := "/Datasets.private/regional_mom6/hindcast/" in
    let file_list := mom6_hindcast mom6_dir in
    (ds_static <- Xr.open_dataset static_file ;;
     ds <- select_loop self file_list None ;;
     ds <- Xr.read_local ds ;;
     Xr.ret (Xr.merge ds_static ds))%io
  else if String.eqb (source self) "regrid" then
    let mom6_dir := "/Datasets.private/regional_mom6/hindcast/regrid/" in
    let file_list := mom6_hindcast mom6_dir in
    (ds <- select_loop self file_list None ;;
     Xr.read_local ds)%io
  else Xr.read_local None.

(** Running a computation from an empty log. *)
Definition run {A : Type} (m : Xr.io A) : Py.result A * list string := m [].

(** The files a call opened, in order. *)
Definition opened {A : Type} (m : Xr.io A) : list string := snd (run m).

(** The files of the list that pass the test of the loop. *)
Definition matching (self : mom6_forecast) (file_list : list string)
  : list string :=
  filter (fun file => imon_flag self file && var_flag self file) file_list.

(** The dataset that the loop binds to [ds] for a matching file. *)
Definition selected (self : mom6_forecast) (file : string) : Xr.Dataset :=
  Xr.mkDataset [file] (Some (init_label self)).

(** The value of [ds] after the loop, from the matches in list order:
    the last one, or the initial binding when there is none. *)
Definition last_match (self : mom6_forecast) (hits : list string)
           (ds : option Xr.Dataset) : option Xr.Dataset :=
  match rev hits with
  | [] => ds
  | file :: _ => Some (selected self file)
  end.

(** The two directories of [get_mom6]. *)
Definition raw_dir : string := "/Datasets.private/regional_mom6/hindcast/".
Definition regrid_dir : string :=
  "/Datasets.private/regional_mom6/hindcast/regrid/".



(** [get_mom6_tercile]: one file is opened, named from the month alone for
    ['raw'] and from the variable and the month for ['regrid']; both
    directories end in a slash and the f-string adds another.  Any other
    [source] reaches the end of the function, which returns [None]. *)
Definition tercile_raw_dir : string :=
  "/Datasets.private/regional_mom6/tercile_calculation/".
Definition tercile_regrid_dir : string :=
  "/Datasets.private/regional_mom6/tercile_calculation/regrid/".

(** The month in the name of the file that the test [f'i{imonth}' in file]
    lets through, for a requested month: the months 3, 6 and 9 stand for
    themselves, and the name [i12] contains both [i1] and [i12]. *)
Definition served_month (m : Z) : option Z :=
  if (m =? 3)%Z then Some 3%Z
  else if (m =? 6)%Z then Some 6%Z
  else if (m =? 9)%Z then Some 9%Z
  else if ((m =? 1) || (m =? 12))%Z then Some 12%Z
  else None.

Definition get_mom6_tercile (self : mom6_forecast) : Xr.io (option Xr.Dataset) :=
  if String.eqb (source self) "raw" then
    let mom6_dir := tercile_raw_dir in
    (ds <- Xr.open_dataset
             (mom6_dir ++ "/forecast_quantiles_i"
                       ++ Py.format_02d (imonth self) ++ ".nc") ;;
     Xr.ret (Some ds))%io
  else if String.eqb (source self) "regrid" then
    let mom6_dir := tercile_regrid_dir in
    (ds <- Xr.open_dataset
             (mom6_dir ++ "/" ++ var self ++ "_forecasts_i"
                       ++ Py.str (imonth self) ++ ".nc") ;;
     Xr.ret (Some ds))%io
  else Xr.ret None.

End Forecast.

(* ===================================================================== *)
(** * [mom6_process.py]: [get_init_fcst_time]                             *)
(* ===================================================================== *)

Module FcstTime.

Import Forecast.
Local Open Scope Z_scope.

(** The exceptions of this method: a list index out of range, and a date
    that does not exist or cannot be parsed. *)
Inductive exn : Type :=
| IndexError
| ValueError.

Definition result (A : Type) : Type := (exn + A)%type.

Definition bind {A B : Type} (r : result A) (k : A -> result B) : result B :=
  match r with
  | inl e => inl e
  | inr a => k a
  end.

(** A list comprehension whose body may raise: left to right, stopping at
    the first exception. *)
Fixpoint traverse {A B : Type} (f : A -> result B) (xs : list A)
  : result (list B) :=
  match xs with
  | [] => inr []
  | x :: rest =>
      bind (f x) (fun y => bind (traverse f rest) (fun ys => inr (y :: ys)))
  end.

(** [xs[i]] on a list: a negative index counts from the end. *)
Definition getitem {A : Type} (xs : list A) (i : Z) : result A :=
  let n := Z.of_nat (List.length xs) in
  let j := if i <? 0 then i + n else i in
  if (0 <=? j) && (j <? n) then
    match nth_error xs (Z.to_nat j) with
    | Some x => inr x
    | None => inl IndexError
    end
  else inl IndexError.

(** A day-1 date: every date of the method is the first of a month. *)
Record date : Type := mkDate {
  year : Z;
  month : Z
}.

(** [cftime.datetime(iyear, imonth, 1)]: the month has to exist; any
    year is taken, the year 0 included. *)
Definition cftime_datetime (y m : Z) : result date :=
  if (1 <=? m) && (m <=? 12) then inr (mkDate y m)
  else inl ValueError.

(** [date.fromisoformat(f'{btime.year}-{btime.month:02d}-{1:02d}')]: the
    year is written without padding, and the format asks for four digits,
    so the years 1000 to 9999 are the ones that parse. *)
Definition fromisoformat (btime : date) : result date :=
  if (1000 <=? year btime) && (year btime <=? 9999)
     && (1 <=? month btime) && (month btime <=? 12)
  then inr btime else inl ValueError.

(** [relativedelta(months=k)]: more than eleven months are carried over
    to years, on the absolute value, and the sign is put back. *)
Record relativedelta : Type := mkDelta {
  years : Z;
  months : Z
}.

Definition relativedelta_months (k : Z) : relativedelta :=
  if 11 <? Z.abs k then
    let s := Z.sgn k in
    let div := (k * s) / 12 in
    let md := (k * s) mod 12 in
    mkDelta (div * s) (md * s)
  else mkDelta 0 k.

(** [date + relativedelta]: years and months are added, a month outside
    1..12 is brought back with one year of carry, and the result has to be
    a date (years 1 to 9999). *)
Definition add (dt : date) (rd : relativedelta) : result date :=
  let y := year dt + years rd in
  let m := month dt + months rd in
  let (y', m') :=
    if 12 <? m then (y + 1, m - 12)
    else if m <? 1 then (y - 1, m + 12)
    else (y, m) in
  if (1 <=? y') && (y' <=? 9999) then inr (mkDate y' m') else inl ValueError.

(** [strftime("%b")] in the C locale. *)
Definition strftime_b (dt : date) : string :=
  nth (Z.to_nat (month dt - 1))
      ["Jan"; "Feb"; "Mar"; "Apr"; "May"; "Jun";
       "Jul"; "Aug"; "Sep"; "Oct"; "Nov"; "Dec"]%string ""%string.

(** [strftime("%b %Y")]; the year is written with its digits, which are
    four from the year 1000 on. *)
Definition strftime_b_Y (dt : date) : string :=
  (strftime_b dt ++ " " ++ Py.str (year dt))%string.

(** The returned dictionary: the keys ['init'] and ['fcsts']. *)
Record InitFcst : Type := mkInitFcst {
  init : string;
  fcsts : list string
}.

(** The label of the period that starts [l] months after the initial
    time: lines 195-211 for one [l]. *)
Definition period_label (btime : date) (period_length l : Z) : result string :=
  bind (fromisoformat btime) (fun d =>
  bind (add d (relativedelta_months l)) (fun sdate =>
  bind (fromisoformat btime) (fun d' =>
  bind (add d' (relativedelta_months (l + period_length))) (fun fdate =>
  inr (strftime_b sdate ++ "-" ++ strftime_b_Y fdate)%string)))).

Definition get_init_fcst_time (self : mom6_forecast) (lead_bins : list Z)
  : result InitFcst :=
  bind (cftime_datetime (iyear self) (imonth self)) (fun btime =>
  bind (getitem lead_bins 1) (fun e1 =>
  bind (getitem lead_bins 0) (fun e0 =>
  let period_length := e1 - e0 - 1 in
  bind (traverse (period_label btime period_length) (Py.range 0 12 1))
       (fun forecasttime =>
  bind (traverse (fun idx => getitem forecasttime idx) (removelast lead_bins))
       (fun mean_forecasttime =>
  bind (fromisoformat btime) (fun ini_time_date =>
  let ini_time := strftime_b_Y ini_time_date in
  inr (mkInitFcst ini_time mean_forecasttime))))))).

(** The default of the parameter [lead_bins]. *)
Definition default_lead_bins : list Z := [0; 3; 6; 9; 12].

(** The name of the month that lies [t] months after a January. *)
Definition month_after_january (t : Z) : string :=
  strftime_b (mkDate 0 (t mod 12 + 1)).

(** The label of a period by month arithmetic: for an initial time
    [(y, m)], the period from lead [l] to lead [l + p], with the year of
    its last month. *)
Definition label_by_arithmetic (y m p l : Z) : string :=
  (month_after_january (m - 1 + l) ++ "-"
     ++ month_after_january (m - 1 + l + p) ++ " "
     ++ Py.str (y + (m - 1 + l + p) / 12))%string.

End FcstTime.

(* ===================================================================== *)
(** * [mom6_process.py]: [calculate_tercile_prob] at one grid cell        *)
(* ===================================================================== *)

Declare Scope py_scope.
Delimit Scope py_scope with py.
Notation "x <- m ;; k" := (Py.bind m (fun x => k))
  (at level 61, m at next level, right associativity) : py_scope.

Module Tercile.

Import RArr.
Local Open Scope Z_scope.

(** [ds_data[var].isel(init=0)] at one grid cell: the [lead] coordinate
    and, for every ensemble member, the values along [lead]. *)
Record DataArray : Type := mkDataArray {
  lead : list Z;
  members : list (list fval)
}.

(** The dataset of [get_mom6_tercile] at the same cell. *)
Record TercileDataset : Type := mkTercileDataset {
  t_lead : list Z;
  f_lowmid : list fval;
  f_midhigh : list fval
}.

(** [np.arange(0, n)]. *)
Definition arange (n : nat) : list Z := map Z.of_nat (seq 0 n).

(** The intervals cut by a list of edges: consecutive pairs. *)
Fixpoint bin_intervals (lead_bins : list Z) : list (Z * Z) :=
  match lead_bins with
  | a :: (b :: _) as rest => (a, b) :: bin_intervals rest
  | _ => []
  end.

(** [right=True]: a value belongs to the interval when it is strictly
    above the left edge and at most the right edge. *)
Definition in_interval (iv : Z * Z) (l : Z) : bool :=
  (fst iv <? l) && (l <=? snd iv).

Fixpoint strictly_increasing (edges : list Z) : bool :=
  match edges with
  | a :: (b :: _) as rest => (a <? b) && strictly_increasing rest
  | _ => true
  end.

(** The cells of a row whose coordinate falls in an interval. *)
Definition bin_members (coord : list Z) (row : list fval) (iv : Z * Z)
  : list fval :=
  map snd (filter (fun p => in_interval iv (fst p)) (combine coord row)).

(** [pandas.cut] rejects edges that do not increase, and xarray rejects
    a grouping in which no coordinate falls in any interval. *)
Definition bins_usable (coord lead_bins : list Z) : bool :=
  strictly_increasing lead_bins &&
  existsb (fun l => existsb (fun iv => in_interval iv l)
                            (bin_intervals lead_bins)) coord.

(** [.groupby_bins('lead', lead_bins, labels=lead_bin_label, right=True)
    .mean('lead')] on one row: one cell per interval, the mean of its
    members; an interval without members keeps its place with NaN. *)
Definition groupby_bins_mean (coord lead_bins : list Z) (row : list fval)
  : list fval :=
  map (fun iv => nanmean (bin_members coord row iv)) (bin_intervals lead_bins).

(** Lines 270-286 (and 299-308 for the boundaries): the [lead_bin]
    coordinate and the rows over it. *)
Definition bin_lead (lead_bins : option (list Z)) (coord : list Z)
           (rows : list (list fval)) : Py.result (list Z * list (list fval)) :=
  match lead_bins with
  | None => Py.Ok (coord, rows)
  | Some lead_bins =>
      let lead_bin_label := arange (List.length lead_bins - 1) in
      if bins_usable coord lead_bins
      then Py.Ok (lead_bin_label, map (groupby_bins_mean coord lead_bins) rows)
      else Py.Raise Py.ValueError
  end.

(** The cells of all rows at one position of the coordinate. *)
Definition column (rows : list (list fval)) (j : nat) : list fval :=
  map (fun row => nth j row None) rows.

(** A reduction over the [member] dimension, for every position of the
    coordinate. *)
Definition over_member (reduce : list fval -> fval) (coord : list Z)
           (rows : list (list fval)) : list fval :=
  map (fun j => reduce (column rows j)) (seq 0 (List.length coord)).

(** numpy broadcasting of the boundaries against the [n] cells of the
    mean, followed by the [xr.DataArray(..., coords=da_mean.coords)] that
    requires [n] cells. *)
Definition broadcast (n : nat) (xs : list fval) : Py.result (list fval) :=
  if Nat.eqb (List.length xs) n then Py.Ok xs
  else match xs with
       | [x] => Py.Ok (repeat x n)
       | _ => Py.Raise Py.ValueError
       end.

(** Lines 316-333 at one cell and one lead bin: the three probabilities,
    labelled [-1], [0], [1] in this order. *)
Definition tercile_prob_cell (mean sd lowmid midhigh : fval)
  : list (Z * fval) :=
  let da_low_tercile_prob := Gauss.cdf mean sd lowmid in
  let da_up_tercile_prob := fsub (Some 1%R) (Gauss.cdf mean sd midhigh) in
  let da_mid_tercile_prob :=
    fsub (fsub (Some 1%R) da_up_tercile_prob) da_low_tercile_prob in
  [(-1, da_low_tercile_prob); (0, da_mid_tercile_prob); (1, da_up_tercile_prob)].

(** Lines 338-341: [idxmax] over the [tercile] dimension times [max] over
    it. *)
Definition tercile_prob_max_cell (probs : list (Z * fval)) : fval :=
  fmul (idxmax probs) (nanmax (map snd probs)).

Record TercileProb : Type := mkTercileProb {
  lead_bin : list Z;
  tercile_prob : list (list (Z * fval));
  tercile_prob_max : list fval
}.

Fixpoint zip4 (a b c d : list fval) : list (fval * fval * fval * fval) :=
  match a, b, c, d with
  | x :: a', y :: b', z :: c', w :: d' => (x, y, z, w) :: zip4 a' b' c' d'
  | _, _, _, _ => []
  end.

(** [calculate_tercile_prob] after its two loads: [da_data] is what
    [get_mom6] gave for the variable, [ds_tercile] what
    [get_mom6_tercile] gave. *)
Definition calculate_tercile_prob (lead_bins : option (list Z))
           (da_data : DataArray) (ds_tercile : TercileDataset)
  : Py.result TercileProb :=
  (da_binned <- bin_lead lead_bins (lead da_data) (members da_data) ;;
   let (coord, rows) := da_binned in
   let da_mean := over_member nanmean coord rows in
   let da_std := over_member std coord rows in
   ds_tercile_binned <-
     bin_lead lead_bins (t_lead ds_tercile)
              [f_lowmid ds_tercile; f_midhigh ds_tercile] ;;
   let lowmid := nth 0 (snd ds_tercile_binned) [] in
   let midhigh := nth 1 (snd ds_tercile_binned) [] in
   lowmid <- broadcast (List.length da_mean) lowmid ;;
   midhigh <- broadcast (List.length da_mean) midhigh ;;
   let da_tercile_prob :=
     map (fun '(m, s, lo, hi) => tercile_prob_cell m s lo hi)
         (zip4 da_mean da_std lowmid midhigh) in
   let da_tercile_prob_max := map tercile_prob_max_cell da_tercile_prob in
   Py.Ok (mkTercileProb coord da_tercile_prob da_tercile_prob_max))%py.

(** The scenario of the seasonal windows: a lead axis 0..11 and the edges
    0, 3, 6, 9, 12. *)
Definition lead_axis12 : list Z := arange 12.
Definition seasonal_bins : list Z := [0; 3; 6; 9; 12].

(** The mean of three consecutive cells of a row, from position [i]. *)
Definition consecutive_mean3 (row : list R) (i : nat) : R :=
  ((nth i row 0 + nth (i + 1) row 0 + nth (i + 2) row 0) / 3)%R.

(** A row that is 0 on leads 0..10 and 6 on lead 11. *)
Definition spike_row : list R := (repeat 0 11 ++ [6])%R%list.

(** The three probabilities of a cell are numbers that add up to 1 within
    the tolerance [1e-9]. *)
Definition sums_to_one (probs : list (Z * fval)) : Prop :=
  exists l m u : R,
    probs = [(-1, Some l); (0, Some m); (1, Some u)] /\
    (Rabs (l + m + u - 1) <= / 1000000000)%R.

(** An ensemble without spread at one lead: [n] members, all equal to
    [c], and the boundaries [lo] and [hi]. *)
Definition flat_ensemble (n : nat) (c : R) : DataArray :=
  mkDataArray [0] (repeat [Some c] n).

Definition boundaries (lo hi : R) : TercileDataset :=
  mkTercileDataset [0] [Some lo] [Some hi].

(** The three labelled probabilities of a cell, from the lower and the
    upper one. *)
Definition triple (l u : R) : list (Z * fval) :=
  [(-1, Some l); (0, Some (1 - u - l)%R); (1, Some u)].

End Tercile.

(* ===================================================================== *)
(** * [mom6_regional_tercile.py]: the climatological boundaries          *)
(* ===================================================================== *)

(** The order on rationals that the sort of [quantile] follows. *)
Module QOrder <: TotalLeBool.
Definition t : Type := Q.
Definition leb (x y : Q) : bool := Qle_bool x y.
Lemma leb_total : forall x y : Q, leb x y = true \/ leb y x = true.
Proof.
  intros x y. unfold leb. rewrite !Qle_bool_iff.
  destruct (Qlt_le_dec x y) as [H | H]; [left; apply Qlt_le_weak, H | right; exact H].
Qed.
End QOrder.

Module QSort := Sort QOrder.

Module Regional.

Local Open Scope Q_scope.

(** A double: a rational number, or NaN. *)
Definition qval : Type := option Q.

Definition qmul (a b : qval) : qval :=
  match a, b with
  | Some x, Some y => Some (x * y)
  | _, _ => None
  end.

Definition Qsum (xs : list Q) : Q := fold_right Qplus 0 xs.

(** [.sum(dim=['xh','yh'])]: NaN cells are skipped, and the sum of no
    cell is 0. *)
Definition nansum (xs : list qval) : Q := Qsum (Nan.finite xs).

(** Division of two sums.  A zero divisor gives no number: with a zero
    dividend the double is NaN (a region without area), otherwise it is an
    infinity, which the embedding does not tell apart from NaN. *)
Definition qdiv (num den : Q) : qval :=
  if Qeq_bool den 0 then None else Some (num / den).

(** The variable [da] at one (lead, init, member): on the first pass of
    the region loop it still has the horizontal dimensions; once the loop
    has assigned to it, it has none. *)
Inductive Field : Type :=
| Grid (cells : list qval)
| Reduced (v : qval).

(** [da*ds_mask[region]*da_area] over the grid: a field without
    horizontal dimensions is broadcast to every cell. *)
Fixpoint mul3 (xs ms ws : list qval) : list qval :=
  match xs, ms, ws with
  | x :: xs', m :: ms', w :: ws' => qmul (qmul x m) w :: mul3 xs' ms' ws'
  | _, _, _ => []
  end.

Fixpoint mul2 (ms ws : list qval) : list qval :=
  match ms, ws with
  | m :: ms', w :: ws' => qmul m w :: mul2 ms' ws'
  | _, _ => []
  end.

Definition times_mask_area (x : Field) (mask area : list qval) : list qval :=
  match x with
  | Grid cells => mul3 cells mask area
  | Reduced v => map (qmul v) (mul2 mask area)
  end.

(** Lines 53-56 at one (lead, init, member). *)
Definition regional_mean (x : Field) (mask area : list qval) : Field :=
  Reduced (qdiv (nansum (times_mask_area x mask area))
                (nansum (mul2 mask area))).

(** The formula of the documentation on the gridded variable itself. *)
Definition area_weighted_mean (cells mask area : list qval) : qval :=
  qdiv (nansum (mul3 cells mask area)) (nansum (mul2 mask area)).

(** The array [da]: for every lead, for every init, for every member, a
    field. *)
Definition Hindcast : Type := list (list (list Field)).

Definition value_of (x : Field) : qval :=
  match x with
  | Grid _ => None
  | Reduced v => v
  end.

(** [.stack(allens=('init','member'))] at one lead: the pooled sample. *)
Definition stack_allens (per_init : list (list Field)) : list qval :=
  map value_of (List.concat per_init).

(** The linear interpolation of numpy's quantile at the virtual index
    [virtual] of the sorted sample [a]: between the two neighbours of the
    index, both clipped to the last position. *)
Definition linear_interpolation (a : list Q) (a0 virtual : Q) : Q :=
  let n := List.length a in
  let previous := Z.to_nat (Qfloor virtual) in
  let gamma := virtual - inject_Z (Qfloor virtual) in
  let lo := nth (Nat.min previous (n - 1)) a a0 in
  let hi := nth (Nat.min (previous + 1) (n - 1)) a a0 in
  lo + gamma * (hi - lo).

(** numpy's [nanquantile] with linear interpolation: drop NaN, sort, and
    interpolate at the virtual index [(n-1)*q]; NaN for an empty
    sample. *)
Definition nanquantile (q : Q) (xs : list qval) : qval :=
  match QSort.sort (Nan.finite xs) with
  | [] => None
  | (a0 :: _) as a =>
      let n := List.length a in
      Some (linear_interpolation a a0 ((inject_Z (Z.of_nat n) - 1) * q))
  end.

(** Lines 59-67 for one region: per lead, the quantiles [1/3] and [2/3]
    of the pooled sample. *)
Definition tercile_of (da : Hindcast) : list (qval * qval) :=
  map (fun per_init =>
         let allens := stack_allens per_init in
         (nanquantile (1 # 3) allens, nanquantile (2 # 3) allens)) da.

(** The state of the region loop: the variable [da] and the two lists
    that grow. *)
Record LoopState : Type := mkLoopState {
  da : Hindcast;
  reg_tercile_list : list (list (qval * qval));
  reg_list : list string
}.

(** Lines 49-71: one pass of [for region in list(ds_mask.keys())].  The
    assignment of line 53 writes the regional mean back to [da]. *)
Definition region_step (da_area : list qval) (st : LoopState)
           (entry : string * list qval) : LoopState :=
  let (region, mask) := entry in
  if String.eqb region "areacello" then st
  else
    let da' := map (map (map (fun x => regional_mean x mask da_area))) (da st) in
    let da_tercile := tercile_of da' in
    mkLoopState da'
                (reg_tercile_list st ++ [da_tercile])
                (reg_list st ++ [region]).

Definition region_loop (da_area : list qval) (ds_mask : list (string * list qval))
           (st : LoopState) : LoopState :=
  fold_left (region_step da_area) ds_mask st.

(** [ds_mask[name]]. *)
Fixpoint getitem (ds_mask : list (string * list qval)) (name : string)
  : Py.result (list qval) :=
  match ds_mask with
  | [] => Py.Raise Py.KeyError
  | (k, v) :: rest => if String.eqb k name then Py.Ok v else getitem rest name
  end.

(** The dataset written for one hindcast file: for every region, for every
    lead, [(f_lowmid, f_midhigh)]. *)
Definition TercileBoundaries : Type := list (string * list (qval * qval)).

(** Lines 45-82 for one hindcast file: [ds_var] is [ds[varname]], on the
    grid. [xr.concat] refuses an empty list. *)
Definition regional_tercile (ds_var : Hindcast) (ds_mask : list (string * list qval))
  : Py.result TercileBoundaries :=
  (da_area <- getitem ds_mask "areacello" ;;
   let st := region_loop da_area ds_mask (mkLoopState ds_var [] []) in
   match reg_tercile_list st with
   | [] => Py.Raise Py.ValueError
   | _ => Py.Ok (combine (reg_list st) (reg_tercile_list st))
   end)%py.

(** A gridded variable: every field still has its horizontal
    dimensions. *)
Definition gridded (cells_of : list (list (list (list qval)))) : Hindcast :=
  map (map (map Grid)) cells_of.



End Regional.

(* ===================================================================== *)
(** * [mom6_regional_tercile.py]: the files of a run                      *)
(* ===================================================================== *)

Module Script.

Local Open Scope string_scope.

Definition MOM6_DIR : string := "/Datasets.private/regional_mom6/hindcast/".
Definition MOM6_TERCILE_DIR : string :=
  "/Datasets.private/regional_mom6/tercile_calculation/".

(** Lines 34-37: the files of the list whose path contains [varname]. *)
Definition var_file_list (file_list : list string) (varname : string)
  : list string :=
  fold_left (fun acc file =>
               if Py.contains varname file then (acc ++ [file])%list else acc)
            file_list [].

(** Lines 79 and 87: the path written for a hindcast file,
    [f'{MOM6_TERCILE_DIR}{file[len(MOM6_DIR):-3]}.region.nc']. *)
Definition output_path (file : string) : string :=
  MOM6_TERCILE_DIR
    ++ Py.slice_to_last file (String.length MOM6_DIR) 3 ++ ".region.nc".

(** What a run does to the outside, in order: a hindcast file is opened,
    a line is printed, a dataset is written. *)
Inductive event : Type :=
| Open (path : string)
| Print (text : string)
| Write (path : string) (ds : Regional.TercileBoundaries).

(** How a run ends: at the end of the script, at [sys.exit], or with an
    exception that nothing catches. *)
Inductive outcome : Type :=
| Finished
| Exit (code : Z)
| Raised (e : Py.exn).

(** What the script finds outside: the variable [ds[varname]] of a
    hindcast file ([KeyError] when the file has no such variable), the
    regional mask, and whether a path can be written ([to_netcdf] raises
    [PermissionError] when it cannot). *)
Record World : Type := mkWorld {
  variable_of : string -> string -> Py.result Regional.Hindcast;
  region_mask : list (string * list Regional.qval);
  writable : string -> bool
}.

(** Lines 41-82 for one file: the dataset of boundaries, or the exception
    that ends the run. *)
Definition tercile_for (w : World) (varname file : string)
  : Py.result Regional.TercileBoundaries :=
  (da <- variable_of w file varname ;;
   Regional.regional_tercile da (region_mask w))%py.

(** Lines 40-95: [for file in var_file_list].  The [PermissionError] of
    the write is caught and reported; nothing else is caught. *)
Fixpoint process (w : World) (varname : string) (files : list string)
  : outcome * list event :=
  match files with
  | [] => (Finished, [])
  | file :: rest =>
      match tercile_for w varname file with
      | inl e => (Raised e, [Open file])
      | inr ds_tercile =>
          let path := output_path file in
          let written :=
            if writable w path then Write path ds_tercile
            else Print (path ++ " is used by other scripts") in
          let (end_of_run, later) := process w varname rest in
          (end_of_run,
           (Open file :: Print ("output " ++ path) :: written :: later)%list)
      end
  end.

(** Lines 23-37 and the loop: the check of the arguments, the choice of the
    files, the loop. *)
Definition main (w : World) (argv file_list : list string)
  : outcome * list event :=
  match argv with
  | _ :: varname :: _ => process w varname (var_file_list file_list varname)
  | _ => (Exit 1, [Print "Usage: python mom6_regional_tercile.py VARNAME"])
  end.

(** The files opened and the paths written during a run, in order. *)
Definition opened_files (events : list event) : list string :=
  flat_map (fun e => match e with Open p => [p] | _ => [] end) events.

Definition written_paths (events : list event) : list string :=
  flat_map (fun e => match e with Write p _ => [p] | _ => [] end) events.

End Script.

(* ===================================================================== *)
(** * Facts: file selection in [get_mom6]                                 *)
(* ===================================================================== *)

Section FileSelection.

Import Forecast.
Local Open Scope string_scope.

Lemma last_match_cons self file hits ds :
  last_match self (file :: hits) ds
  = last_match self hits (Some (selected self file)).
Proof.
  unfold last_match. simpl.
  destruct (rev hits) as [|x xs]; reflexivity.
Qed.

(** The loop opens exactly the matching files, in order, and leaves the
    last of them in [ds]. *)
Lemma select_loop_run self file_list :
  forall ds log,
    select_loop self file_list ds log
    = (Py.Ok (last_match self (matching self file_list) ds),
       (log ++ matching self file_list)%list).
Proof.
  induction file_list as [|file rest IH]; intros ds log.
  - simpl. unfold Xr.ret, last_match. simpl. now rewrite app_nil_r.
  - simpl. unfold Xr.bind, select_step.
    unfold matching in *. simpl.
    destruct (imon_flag self file && var_flag self file) eqn:E.
    + simpl. rewrite IH. rewrite last_match_cons.
      unfold selected, Xr.sel_init. simpl.
      now rewrite <- app_assoc.
    + unfold Xr.ret. simpl. rewrite IH. reflexivity.
Qed.


Lemma get_mom6_regrid self :
  source self = "regrid" ->
  run (get_mom6 self)
  = (match rev (matching self (mom6_hindcast regrid_dir)) with
     | [] => Py.Raise Py.UnboundLocalError
     | file :: _ => Py.Ok (selected self file)
     end, matching self (mom6_hindcast regrid_dir)).
Proof.
  intros Hsrc. unfold run, get_mom6. rewrite Hsrc.
  change ("regrid" =? "raw") with false.
  change ("regrid" =? "regrid") with true. cbv iota.
  unfold Xr.bind. rewrite select_loop_run.
  unfold last_match. fold regrid_dir.
  destruct (rev (matching self (mom6_hindcast regrid_dir))); reflexivity.
Qed.


End FileSelection.





(* ===================================================================== *)
(** * Facts: the lead-time binner                                         *)
(* ===================================================================== *)

Section LeadBinner.

Import RArr Tercile.
Local Open Scope R_scope.

(** The mean of a row of numbers. *)
Lemma nanmean_numbers (x : R) (xs : list R) :
  nanmean (map Some (x :: xs))
  = Some (Rsum (x :: xs) / INR (List.length (x :: xs))).
Proof.
  unfold nanmean.
  assert (H : forall l : list R, Nan.finite (map Some l) = l).
  { induction l as [|a l IH]; [reflexivity|].
    unfold Nan.finite in *. simpl. now rewrite IH. }
  rewrite H. reflexivity.
Qed.

(** A coordinate at or below the first edge, or above the last one, is in
    no interval cut from increasing edges. *)
Lemma outside_all_intervals (edges : list Z) (l : Z) :
  strictly_increasing edges = true ->
  (l <= hd 0%Z edges \/ last edges 0%Z < l)%Z ->
  existsb (fun iv => in_interval iv l) (bin_intervals edges) = false.
Proof.
  induction edges as [|a [|b rest] IH]; intros Hinc Hout; try reflexivity.
  simpl in Hinc. apply andb_prop in Hinc as [Hab Hinc].
  apply Z.ltb_lt in Hab.
  change (bin_intervals (a :: b :: rest))
    with ((a, b) :: bin_intervals (b :: rest)).
  simpl existsb. apply orb_false_intro.
  - unfold in_interval; simpl.
    destruct Hout as [Hle | Hgt].
    + simpl in Hle. apply andb_false_intro1. apply Z.ltb_ge. lia.
    + apply andb_false_intro2. apply Z.leb_gt.
      assert (Hlast : (b <= last (b :: rest) 0)%Z).
      { clear -Hinc. revert b Hinc.
        induction rest as [|c rest IH]; intros b Hinc; [simpl; lia|].
        simpl in Hinc. apply andb_prop in Hinc as [Hbc Hinc].
        apply Z.ltb_lt in Hbc.
        specialize (IH c Hinc).
        change (last (b :: c :: rest) 0%Z) with (last (c :: rest) 0%Z). lia. }
      change (last (a :: b :: rest) 0%Z) with (last (b :: rest) 0%Z) in Hgt.
      lia.
  - apply IH; [exact Hinc|].
    destruct Hout as [Hle | Hgt].
    + left. simpl in *. lia.
    + right. exact Hgt.
Qed.

(** The four windows of the seasonal scenario, for any row of numbers. *)
Lemma seasonal_windows_eval (v0 v1 v2 v3 v4 v5 v6 v7 v8 v9 v10 v11 : R) :
  bin_lead (Some seasonal_bins) lead_axis12
    [map Some [v0; v1; v2; v3; v4; v5; v6; v7; v8; v9; v10; v11]]
  = Py.Ok ([0; 1; 2; 3]%Z,
           [[Some ((v1 + v2 + v3) / 3); Some ((v4 + v5 + v6) / 3);
             Some ((v7 + v8 + v9) / 3); Some ((v10 + v11) / 2)]]).
Proof.
  unfold bin_lead.
  change (bins_usable lead_axis12 seasonal_bins) with true.
  cbv iota. unfold Py.Ok. do 2 f_equal.
  unfold groupby_bins_mean, bin_members. simpl.
  unfold nanmean. simpl.
  replace ((v1 + (v2 + (v3 + 0))) / (1 + 1 + 1)) with ((v1 + v2 + v3) / 3) by field.
  replace ((v4 + (v5 + (v6 + 0))) / (1 + 1 + 1)) with ((v4 + v5 + v6) / 3) by field.
  replace ((v7 + (v8 + (v9 + 0))) / (1 + 1 + 1)) with ((v7 + v8 + v9) / 3) by field.
  replace ((v10 + (v11 + 0)) / (1 + 1)) with ((v10 + v11) / 2) by field.
  reflexivity.
Qed.

(** C3: what the binner computes on the scenario of the claim.  On a lead
    axis 0..11 with edges 0, 3, 6, 9, 12 it gives four windows labelled 0,
    1, 2, 3, cut open on the left and closed on the right: windows 0, 1, 2
    are the means of leads 1-3, 4-6, 7-9, window 3 is the mean of the two
    leads 10 and 11 only, and lead 0 enters no window.  The source says of
    these edges that they produce 3-month averages, and
    [get_init_fcst_time] labels the same four windows as the leads 0-2,
    3-5, 6-8 and 9-11. *)
Theorem seasonal_windows (v0 v1 v2 v3 v4 v5 v6 v7 v8 v9 v10 v11 : R) :
  Tercile.bin_lead (Some Tercile.seasonal_bins) Tercile.lead_axis12
    [map Some [v0; v1; v2; v3; v4; v5; v6; v7; v8; v9; v10; v11]]
  = Py.Ok ([0; 1; 2; 3]%Z,
           [[Some ((v1 + v2 + v3) / 3); Some ((v4 + v5 + v6) / 3);
             Some ((v7 + v8 + v9) / 3); Some ((v10 + v11) / 2)]])
  /\ existsb (fun iv => Tercile.in_interval iv 0%Z)
             (Tercile.bin_intervals Tercile.seasonal_bins) = false.
Proof.
  split; [apply seasonal_windows_eval | reflexivity].
Qed.

(** C3: the last window is not a 3-month average.  With the value 6 on
    lead 11 and 0 elsewhere, window 3 is 3, and no three consecutive leads
    of the axis have that mean. *)
Lemma seasonal_window3_not_three_leads :
  exists w,
    Tercile.bin_lead (Some Tercile.seasonal_bins) Tercile.lead_axis12
      [map Some Tercile.spike_row]
    = Py.Ok ([0; 1; 2; 3]%Z, [w]) /\
    nth 3 w None = Some 3 /\
    ~ exists i, (i + 2 < 12)%nat /\
                nth 3 w None = Some (Tercile.consecutive_mean3 Tercile.spike_row i).
Proof.
  eexists. split.
  - apply (seasonal_windows_eval 0 0 0 0 0 0 0 0 0 0 0 6).
  - cbn [nth]. split.
    + f_equal. lra.
    + intros [i [Hi Heq]]. injection Heq as Heq.
      unfold Tercile.consecutive_mean3, Tercile.spike_row in Heq.
      do 10 (destruct i as [|i]; [cbn [nth repeat app Nat.add] in Heq; lra|]).
      lia.
Qed.

End LeadBinner.

(* ===================================================================== *)
(** * Facts: the ensemble distribution                                    *)
(* ===================================================================== *)

Section EnsembleDistribution.

Import RArr Tercile.
Local Open Scope R_scope.

Lemma finite_numbers (l : list R) : Nan.finite (map Some l) = l.
Proof.
  induction l as [|a l IH]; [reflexivity|].
  unfold Nan.finite in *. simpl. now rewrite IH.
Qed.

Lemma finite_repeat (c : R) (n : nat) :
  Nan.finite (repeat (Some c) n) = repeat c n.
Proof.
  induction n as [|n IH]; [reflexivity|].
  unfold Nan.finite in *. simpl. now rewrite IH.
Qed.

Lemma Rsum_repeat (c : R) (n : nat) : Rsum (repeat c n) = INR n * c.
Proof.
  induction n as [|n IH].
  - simpl. lra.
  - rewrite S_INR. simpl. rewrite IH. lra.
Qed.

Lemma Rsum_squares_nonneg (f : R -> R) (l : list R) :
  0 <= Rsum (map (fun x => f x * f x) l).
Proof.
  induction l as [|a l IH]; simpl; [lra|].
  pose proof (Rle_0_sqr (f a)) as H. unfold Rsqr in H. lra.
Qed.

(** In exact arithmetic equal members have no spread.  In doubles this is
    so when the sum and the mean of the members are exact, as for members
    equal to 5 or to 2, which is where the lemma is used. *)
Lemma std_flat (c : R) (n : nat) :
  std (repeat (Some c) (S n)) = Some 0.
Proof.
  unfold std, nanstd, nanvar. rewrite finite_repeat.
  change (repeat c (S n)) with (c :: repeat c n) at 1.
  cbv iota. change (c :: repeat c n) with (repeat c (S n)).
  rewrite repeat_length.
  change (S n <=? 0)%nat with false. cbv iota zeta.
  rewrite Rsum_repeat, map_repeat, Rsum_repeat.
  replace (S n - 0)%nat with (S n) by lia.
  assert (Hn : INR (S n) <> 0) by (apply not_0_INR; discriminate).
  set (k := INR (S n)) in *.
  unfold option_map. f_equal.
  replace (k * ((c - k * c / k) * (c - k * c / k)) / k)
    with 0 by (field; exact Hn).
  apply sqrt_0.
Qed.

(** Without a positive scale the distribution function is NaN. *)
Lemma cdf_scale_zero (loc x : fval) : Gauss.cdf loc (Some 0) x = None.
Proof.
  unfold Gauss.cdf. destruct loc, x; try reflexivity.
  destruct (Rlt_dec 0 0) as [H | H]; [lra | reflexivity].
Qed.

Lemma cdf_no_mean (scale x : fval) : Gauss.cdf None scale x = None.
Proof. reflexivity. Qed.

(** With a positive scale and numbers everywhere it is a number. *)
Lemma cdf_number (m s x : R) :
  0 < s -> Gauss.cdf (Some m) (Some s) (Some x) = Some (Gauss.Phi ((x - m) / s)).
Proof.
  intros Hs. unfold Gauss.cdf.
  destruct (Rlt_dec 0 s) as [H | H]; [reflexivity | lra].
Qed.

(** A cell whose distribution function is NaN at both boundaries. *)
Lemma cell_all_nan (mean sd lo hi : fval) :
  Gauss.cdf mean sd lo = None -> Gauss.cdf mean sd hi = None ->
  tercile_prob_cell mean sd lo hi = [(-1, None); (0, None); (1, None)]%Z
  /\ tercile_prob_max_cell (tercile_prob_cell mean sd lo hi) = None.
Proof.
  intros Hlo Hhi. unfold tercile_prob_cell. rewrite Hlo, Hhi.
  split; reflexivity.
Qed.

(** A computed deviation of 0 leaves no number in the cell, whatever the
    mean and the boundaries. *)
Lemma cell_zero_deviation (mean lo hi : fval) :
  tercile_prob_cell mean (Some 0) lo hi = [(-1, None); (0, None); (1, None)]%Z
  /\ tercile_prob_max_cell (tercile_prob_cell mean (Some 0) lo hi) = None.
Proof. apply cell_all_nan; apply cdf_scale_zero. Qed.

(** The column of a flat ensemble at its only lead. *)
Lemma column_flat (n : nat) (c : R) :
  column (repeat [Some c] n) 0 = repeat (Some c) n.
Proof. unfold column. now rewrite map_repeat. Qed.

(** The whole computation on one lead whose computed deviation is 0: no
    exception, and NaN in the cell. *)
Lemma calculate_zero_deviation (rows : list (list fval)) (lo hi : fval) :
  std (column rows 0) = Some 0 ->
  calculate_tercile_prob None (mkDataArray [0%Z] rows)
                         (mkTercileDataset [0%Z] [lo] [hi])
  = Py.Ok (mkTercileProb [0%Z] [[(-1, None); (0, None); (1, None)]%Z] [None]).
Proof.
  intros Hstd. unfold calculate_tercile_prob, bin_lead.
  cbn [Py.bind Py.Ok lead members t_lead f_lowmid f_midhigh snd nth].
  unfold over_member. cbn [List.length seq map]. rewrite Hstd.
  unfold broadcast. cbn [List.length Nat.eqb Py.bind Py.Ok zip4 map].
  destruct (cell_zero_deviation (nanmean (column rows 0)) lo hi) as [Hp Hm].
  rewrite Hm, Hp. reflexivity.
Qed.

(** Ten members equal to 5: the sum 50 and the mean 5 are exact, and the
    deviation is 0. *)
Lemma ten_fives_deviation :
  std (column (repeat [Some 5] 10) 0) = Some 0.
Proof. rewrite column_flat. apply (std_flat 5 9). Qed.

(** The variance and the deviation of a list of numbers, with the
    divisor [n]. *)
Lemma std_numbers (x : R) (xs : list R) :
  std (map Some (x :: xs))
  = Some (sqrt (Rsum (map (fun y => (y - Rsum (x :: xs) / INR (List.length (x :: xs)))
                                    * (y - Rsum (x :: xs) / INR (List.length (x :: xs))))
                          (x :: xs))
                / INR (List.length (x :: xs)))).
Proof.
  unfold std, nanstd, nanvar. rewrite finite_numbers.
  cbv iota.
  change (List.length (x :: xs) <=? 0)%nat with false. cbv iota zeta.
  replace (List.length (x :: xs) - 0)%nat with (List.length (x :: xs)) by lia.
  reflexivity.
Qed.

(** C5, as amended.  The deviation across the members is the population
    standard deviation: its square times the number [n] of members is the
    sum of the squared deviations from the mean, so the divisor is [n] and
    not [n - 1]. *)
Theorem ensemble_std_divides_by_n (x : R) (xs : list R) :
  let ys := x :: xs in
  let n := INR (List.length ys) in
  let avg := Rsum ys / n in
  exists s : R,
    std (map Some ys) = Some s /\ 0 <= s /\
    s * s * n = Rsum (map (fun y => (y - avg) * (y - avg)) ys).
Proof.
  intros ys n avg. unfold ys at 1. rewrite std_numbers. fold ys. fold n. fold avg.
  set (V := Rsum (map (fun y => (y - avg) * (y - avg)) ys)).
  assert (HV : 0 <= V) by apply (Rsum_squares_nonneg (fun y => y - avg)).
  assert (Hn : 0 < n).
  { unfold n, ys. apply lt_0_INR. simpl. lia. }
  assert (Hq : 0 <= V / n).
  { apply Rmult_le_pos; [exact HV|]. left. now apply Rinv_0_lt_compat. }
  exists (sqrt (V / n)). split; [reflexivity|]. split; [apply sqrt_pos|].
  rewrite sqrt_sqrt by exact Hq. field. lra.
Qed.

(** C5, as stated, fails: for the two members 0 and 2 the code gives the
    deviation 1, and the sample standard deviation is the square root of
    2. *)
Lemma ensemble_std_is_not_sample_std :
  std [Some 0; Some 2] = Some 1 /\
  nanstd 1 [Some 0; Some 2] = Some (sqrt 2) /\
  std [Some 0; Some 2] <> nanstd 1 [Some 0; Some 2].
Proof.
  assert (H0 : std [Some 0; Some 2] = Some 1).
  { change [Some 0; Some 2] with (map Some [0; 2]). rewrite std_numbers.
    f_equal. cbn [Rsum map fold_right List.length INR].
    replace (((0 - (0 + (2 + 0)) / (1 + 1)) * (0 - (0 + (2 + 0)) / (1 + 1))
              + ((2 - (0 + (2 + 0)) / (1 + 1)) * (2 - (0 + (2 + 0)) / (1 + 1)) + 0))
             / (1 + 1)) with 1 by field.
    apply sqrt_1. }
  assert (H1 : nanstd 1 [Some 0; Some 2] = Some (sqrt 2)).
  { unfold nanstd, nanvar. cbn [Nan.finite flat_map app List.length Nat.leb Nat.sub].
    unfold option_map. f_equal. f_equal.
    cbn [Rsum map fold_right List.length INR]. field. }
  split; [exact H0|]. split; [exact H1|].
  rewrite H0, H1. intros Heq. injection Heq as Heq.
  assert (Hs : sqrt 2 * sqrt 2 = 2) by (apply sqrt_sqrt; lra).
  rewrite <- Heq in Hs. lra.
Qed.

(** C6, as amended.  Where the deviation computed across the members is
    0, the computation does not fail and applies no convention for zero
    variance: whatever the members, the mean and the boundaries, the three
    probabilities and the signed maximum of the cell are NaN.  Ten members
    equal to 5 have the computed deviation 0, and with the boundaries 3 and
    7 they give (NaN, NaN, NaN) and not (0, 1, 0). *)
Theorem zero_deviation_gives_nan :
  (forall (rows : list (list fval)) (lo hi : fval),
      std (column rows 0) = Some 0 ->
      calculate_tercile_prob None (mkDataArray [0%Z] rows)
                             (mkTercileDataset [0%Z] [lo] [hi])
      = Py.Ok (mkTercileProb [0%Z] [[(-1, None); (0, None); (1, None)]%Z]
                             [None])) /\
  std (column (members (flat_ensemble 10 5)) 0) = Some 0 /\
  calculate_tercile_prob None (flat_ensemble 10 5) (boundaries 3 7)
  = Py.Ok (mkTercileProb [0%Z] [[(-1, None); (0, None); (1, None)]%Z] [None]).
Proof.
  split; [exact calculate_zero_deviation|].
  split; [exact ten_fives_deviation|].
  exact (calculate_zero_deviation (repeat [Some 5] 10) (Some 3) (Some 7)
                                  ten_fives_deviation).
Qed.

Lemma zero_deviation_gives_nan_witness :
  calculate_tercile_prob None
    (mkDataArray [0%Z] [[Some 2]; [Some 2]])
    (mkTercileDataset [0%Z] [None] [Some 7])
  = Py.Ok (mkTercileProb [0%Z] [[(-1, None); (0, None); (1, None)]%Z] [None]).
Proof.
  apply (proj1 zero_deviation_gives_nan [[Some 2]; [Some 2]] None (Some 7)).
  exact (std_flat 2 1).
Defined.

(** C6, as stated, fails: ten members equal to 5 with the boundaries 3 and
    7 give no number at all, in particular not the triple (0, 1, 0). *)
Lemma ten_equal_members_give_nan :
  exists out,
    calculate_tercile_prob None (flat_ensemble 10 5) (boundaries 3 7) = Py.Ok out /\
    tercile_prob_max out = [None] /\
    ~ exists l m u : R,
        tercile_prob out = [[(-1, Some l); (0, Some m); (1, Some u)]%Z].
Proof.
  eexists. split.
  - exact (calculate_zero_deviation (repeat [Some 5] 10) (Some 3) (Some 7)
                                    ten_fives_deviation).
  - split; [reflexivity|].
    cbn [tercile_prob]. intros [l [m [u H]]]. discriminate H.
Qed.

(** C1, as amended.  The three probabilities of a cell are numbers that
    add up to 1 in exactly one case: the mean and both boundaries are
    numbers and the computed deviation is positive; the middle one is then
    [1 - upper - lower], whatever the order of the boundaries.  In every
    other case the middle probability is NaN and there is no sum: a mean
    or a deviation that is NaN, or a deviation that is not positive, makes
    all three NaN; a NaN [f_lowmid] alone leaves the upper probability a
    number, and a NaN [f_midhigh] alone the lower one. *)
Theorem tercile_probabilities_sum (mean sd lo hi : fval) :
  (forall m s a b : R,
      mean = Some m -> sd = Some s -> 0 < s -> lo = Some a -> hi = Some b ->
      tercile_prob_cell mean sd lo hi
      = triple (Gauss.Phi ((a - m) / s)) (1 - Gauss.Phi ((b - m) / s)) /\
      sums_to_one (tercile_prob_cell mean sd lo hi)) /\
  (sums_to_one (tercile_prob_cell mean sd lo hi) ->
   exists m s a b : R,
     mean = Some m /\ sd = Some s /\ 0 < s /\ lo = Some a /\ hi = Some b) /\
  (sums_to_one (tercile_prob_cell mean sd lo hi) \/
   In (0%Z, None) (tercile_prob_cell mean sd lo hi)) /\
  (mean = None \/ sd = None \/ (exists s : R, sd = Some s /\ s <= 0) ->
   tercile_prob_cell mean sd lo hi = [(-1, None); (0, None); (1, None)]%Z) /\
  (forall m s b : R,
      mean = Some m -> sd = Some s -> 0 < s -> lo = None -> hi = Some b ->
      tercile_prob_cell mean sd lo hi
      = [((-1)%Z, None); (0%Z, None);
         (1%Z, Some (1 - Gauss.Phi ((b - m) / s)))]) /\
  (forall m s a : R,
      mean = Some m -> sd = Some s -> 0 < s -> lo = Some a -> hi = None ->
      tercile_prob_cell mean sd lo hi
      = [((-1)%Z, Some (Gauss.Phi ((a - m) / s))); (0%Z, None); (1%Z, None)]).
Proof.
  assert (Hnum : forall m s a b : R,
             0 < s ->
             tercile_prob_cell (Some m) (Some s) (Some a) (Some b)
             = triple (Gauss.Phi ((a - m) / s)) (1 - Gauss.Phi ((b - m) / s)) /\
             sums_to_one (tercile_prob_cell (Some m) (Some s) (Some a) (Some b))).
  { intros m s a b Hs.
    assert (Hcell : tercile_prob_cell (Some m) (Some s) (Some a) (Some b)
                    = triple (Gauss.Phi ((a - m) / s))
                             (1 - Gauss.Phi ((b - m) / s))).
    { unfold tercile_prob_cell. rewrite !cdf_number by exact Hs. reflexivity. }
    split; [exact Hcell|]. rewrite Hcell. unfold sums_to_one, triple.
    eexists _, _, _. split; [reflexivity|].
    match goal with |- Rabs ?e <= _ => replace e with 0 by lra end.
    rewrite Rabs_R0. lra. }
  assert (Hcases :
            (exists m s a b : R,
                mean = Some m /\ sd = Some s /\ 0 < s /\ lo = Some a /\ hi = Some b)
            \/ In (0%Z, None) (tercile_prob_cell mean sd lo hi)).
  { destruct mean as [m |], sd as [s |], lo as [a |], hi as [b |];
      try (right; unfold tercile_prob_cell, Gauss.cdf;
           try destruct (Rlt_dec 0 s); cbn [fsub In]; tauto).
    destruct (Rlt_dec 0 s) as [Hs | Hs].
    - left. exists m, s, a, b. repeat split. exact Hs.
    - right. unfold tercile_prob_cell, Gauss.cdf.
      destruct (Rlt_dec 0 s); [contradiction|]. cbn [fsub In]. tauto. }
  split; [|split; [|split; [|split; [|split]]]].
  - intros m s a b -> -> Hs -> ->. exact (Hnum m s a b Hs).
  - intros [l [mid [u [Hcell _]]]].
    destruct Hcases as [H | H]; [exact H|].
    rewrite Hcell in H. cbn [In] in H.
    destruct H as [H | [H | [H | []]]]; discriminate H.
  - destruct Hcases as [[m [s [a [b [-> [-> [Hs [-> ->]]]]]]]] | H];
      [left; exact (proj2 (Hnum m s a b Hs)) | right; exact H].
  - intros [-> | [-> | [s [-> Hs]]]].
    + unfold tercile_prob_cell. rewrite !cdf_no_mean. reflexivity.
    + unfold tercile_prob_cell, Gauss.cdf.
      destruct mean, lo, hi; reflexivity.
    + unfold tercile_prob_cell, Gauss.cdf.
      destruct (Rlt_dec 0 s) as [Hpos | _]; [exfalso; lra|].
      destruct mean, lo, hi; reflexivity.
  - intros m s b -> -> Hs -> ->. unfold tercile_prob_cell.
    rewrite cdf_number by exact Hs. reflexivity.
  - intros m s a -> -> Hs -> ->. unfold tercile_prob_cell.
    rewrite cdf_number by exact Hs. reflexivity.
Qed.

Lemma tercile_probabilities_sum_witness :
  tercile_prob_cell (Some 0) (Some 1) (Some (-1)) (Some 1)
  = triple (Gauss.Phi ((-1 - 0) / 1)) (1 - Gauss.Phi ((1 - 0) / 1)) /\
  sums_to_one (tercile_prob_cell (Some 0) (Some 1) (Some (-1)) (Some 1)).
Proof.
  exact (proj1 (tercile_probabilities_sum (Some 0) (Some 1) (Some (-1)) (Some 1))
               0 1 (-1) 1 eq_refl eq_refl Rlt_0_1 eq_refl eq_refl).
Defined.

(** C1, as stated, fails: two members equal to 5 have the deviation 0, and
    with the ordered boundaries 3 and 7 the three probabilities are NaN, so
    they do not add up to 1. *)
Lemma flat_cell_does_not_sum_to_one :
  std [Some 5; Some 5] = Some 0 /\
  ~ sums_to_one (tercile_prob_cell (nanmean [Some 5; Some 5])
                                   (std [Some 5; Some 5]) (Some 3) (Some 7)).
Proof.
  split; [exact (std_flat 5 1)|].
  rewrite (std_flat 5 1 : std [Some 5; Some 5] = Some 0).
  destruct (cell_zero_deviation (nanmean [Some 5; Some 5]) (Some 3) (Some 7))
    as [Hp _].
  rewrite Hp. intros [l [m [u [H _]]]]. discriminate H.
Qed.

End EnsembleDistribution.

(* ===================================================================== *)
(** * The dominant category: [idxmax] times [max]                         *)
(* ===================================================================== *)

Section DominantCategory.

Import RArr Tercile.
Local Open Scope R_scope.

(** The scan of [idxmax] and the fold of [max] over three numbers: the
    position [i] they agree on holds the largest number, and strictly
    larger than every number before it. *)
Lemma selector_cases (l m u : R) :
  exists i : nat,
    (i < 3)%nat /\
    idxmax [(-1, Some l); (0, Some m); (1, Some u)]%Z
    = Some (IZR (nth i [-1; 0; 1]%Z 0%Z)) /\
    nanmax [Some l; Some m; Some u] = Some (nth i [l; m; u] 0) /\
    Forall (fun x => x <= nth i [l; m; u] 0) [l; m; u] /\
    Forall (fun x => x < nth i [l; m; u] 0) (firstn i [l; m; u]).
Proof.
  unfold idxmax, first_max, nanmax.
  cbn [Nan.finite flat_map app fold_left snd fst].
  destruct (Rlt_dec l m) as [Hlm | Hlm]; cbn [snd fst].
  - destruct (Rlt_dec m u) as [Hmu | Hmu]; cbn [snd fst].
    + exists 2%nat. cbn [nth firstn].
      split; [lia|]. split; [reflexivity|].
      split; [f_equal; unfold Rmax; repeat destruct Rle_dec; lra|].
      split; repeat (apply Forall_cons; [lra|]); apply Forall_nil.
    + exists 1%nat. cbn [nth firstn].
      split; [lia|]. split; [reflexivity|].
      split; [f_equal; unfold Rmax; repeat destruct Rle_dec; lra|].
      split; repeat (apply Forall_cons; [lra|]); apply Forall_nil.
  - destruct (Rlt_dec l u) as [Hlu | Hlu]; cbn [snd fst].
    + exists 2%nat. cbn [nth firstn].
      split; [lia|]. split; [reflexivity|].
      split; [f_equal; unfold Rmax; repeat destruct Rle_dec; lra|].
      split; repeat (apply Forall_cons; [lra|]); apply Forall_nil.
    + exists 0%nat. cbn [nth firstn].
      split; [lia|]. split; [reflexivity|].
      split; [f_equal; unfold Rmax; repeat destruct Rle_dec; lra|].
      split; repeat (apply Forall_cons; [lra|]); apply Forall_nil.
Qed.

(** The signed output on three numbers: the selected label times the
    number at the selected position. *)
Lemma selector_output (l m u : R) :
  exists i : nat,
    (i < 3)%nat /\
    idxmax [(-1, Some l); (0, Some m); (1, Some u)]%Z
    = Some (IZR (nth i [-1; 0; 1]%Z 0%Z)) /\
    Forall (fun x => x <= nth i [l; m; u] 0) [l; m; u] /\
    Forall (fun x => x < nth i [l; m; u] 0) (firstn i [l; m; u]) /\
    tercile_prob_max_cell [(-1, Some l); (0, Some m); (1, Some u)]%Z
    = Some (IZR (nth i [-1; 0; 1]%Z 0%Z) * nth i [l; m; u] 0).
Proof.
  destruct (selector_cases l m u) as [i [Hi [Hidx [Hmax [Hle Hlt]]]]].
  exists i.
  split; [exact Hi|]. split; [exact Hidx|].
  split; [exact Hle|]. split; [exact Hlt|].
  unfold tercile_prob_max_cell. rewrite Hidx.
  change (map snd [(-1, Some l); (0, Some m); (1, Some u)]%Z)
    with [Some l; Some m; Some u].
  rewrite Hmax. reflexivity.
Qed.

(** Evaluates the signed output of three given numbers: the position is
    settled by the two order conditions. *)
Ltac settle_selector :=
  match goal with
  | |- tercile_prob_max_cell [(_, Some ?l); (_, Some ?m); (_, Some ?u)] = _ =>
      let i := fresh "i" in
      let Hi := fresh "Hi" in
      let Hle := fresh "Hle" in
      let Hlt := fresh "Hlt" in
      let Hv := fresh "Hv" in
      destruct (selector_output l m u) as [i [Hi [_ [Hle [Hlt Hv]]]]];
      rewrite Hv; clear Hv;
      destruct i as [| [| [| i]]]; [ | | | lia]; cbn [nth firstn] in *;
      repeat match goal with
             | H : Forall _ (_ :: _) |- _ => inversion H; clear H; subst
             end;
      try (exfalso; lra); f_equal; lra
  end.

(** C9.  On three probabilities labelled -1, 0, 1 in this order, the
    selected label is the one at the first position that holds the maximum:
    every probability is at most the selected one and every earlier one is
    strictly smaller, so among tied maxima the first in sequence order wins;
    the signed output is that label times the maximum. *)
Theorem dominant_category_first_maximum (l m u : R) :
  exists i : nat,
    (i < 3)%nat /\
    idxmax [(-1, Some l); (0, Some m); (1, Some u)]%Z
    = Some (IZR (nth i [-1; 0; 1]%Z 0%Z)) /\
    Forall (fun x => x <= nth i [l; m; u] 0) [l; m; u] /\
    Forall (fun x => x < nth i [l; m; u] 0) (firstn i [l; m; u]) /\
    tercile_prob_max_cell [(-1, Some l); (0, Some m); (1, Some u)]%Z
    = Some (IZR (nth i [-1; 0; 1]%Z 0%Z) * nth i [l; m; u] 0).
Proof. exact (selector_output l m u). Qed.

(** Ties, in the three possible ways: the earlier label is selected. *)
Lemma ties_pick_the_earlier_label :
  tercile_prob_max_cell [((-1)%Z, Some (4/10)); (0%Z, Some (4/10)); (1%Z, Some (2/10))]
  = Some (-1 * (4/10)) /\
  tercile_prob_max_cell [((-1)%Z, Some (2/10)); (0%Z, Some (4/10)); (1%Z, Some (4/10))]
  = Some (0 * (4/10)) /\
  tercile_prob_max_cell [((-1)%Z, Some (4/10)); (0%Z, Some (2/10)); (1%Z, Some (4/10))]
  = Some (-1 * (4/10)).
Proof.
  split; [settle_selector|]. split; settle_selector.
Qed.

(** C4, as amended.  For three probabilities of which the middle one is
    [1 - upper - lower], the maximum is positive, and the signed output is
    minus the maximum when the lower category is selected, the maximum when
    the upper one is, and exactly 0 when the middle one is: its magnitude is
    the maximum only for the two outer categories. *)
Theorem tercile_prob_max_signed (l u : R) :
  exists mx : R,
    nanmax (map snd (triple l u)) = Some mx /\
    0 < mx /\
    ((idxmax (triple l u) = Some (-1) /\ l = mx /\
      tercile_prob_max_cell (triple l u) = Some (- mx)) \/
     (idxmax (triple l u) = Some 0 /\ 1 - u - l = mx /\
      tercile_prob_max_cell (triple l u) = Some 0) \/
     (idxmax (triple l u) = Some 1 /\ u = mx /\
      tercile_prob_max_cell (triple l u) = Some mx)).
Proof.
  destruct (selector_cases l (1 - u - l) u) as [i [Hi [Hidx [Hmax [Hle _]]]]].
  unfold triple, tercile_prob_max_cell.
  change (map snd [((-1)%Z, Some l); (0%Z, Some (1 - u - l)); (1%Z, Some u)])
    with [Some l; Some (1 - u - l); Some u].
  rewrite Hidx, Hmax.
  exists (nth i [l; 1 - u - l; u] 0). split; [reflexivity|].
  assert (Hpos : 0 < nth i [l; 1 - u - l; u] 0).
  { inversion Hle as [| ? ? H1 Hle1]; subst.
    inversion Hle1 as [| ? ? H2 Hle2]; subst.
    inversion Hle2 as [| ? ? H3 _]; subst. lra. }
  split; [exact Hpos|].
  destruct i as [| [| [| i]]]; [| | | lia]; cbn [nth] in *.
  - left. repeat split. unfold fmul. f_equal. lra.
  - right. left. repeat split. unfold fmul. f_equal. lra.
  - right. right. repeat split. unfold fmul. f_equal. lra.
Qed.

(** Bounds on the kernel and on the distribution function at -1 and 1. *)
Lemma kernel_ge_half (x : R) : -1 <= x <= 1 -> 1 / 2 <= Gauss.kernel x.
Proof.
  intros Hx. unfold Gauss.kernel.
  pose proof (exp_ineq1_le (- (x * x) / 2)) as He.
  assert (Hxx : x * x <= 1) by nra.
  lra.
Qed.

Lemma kernel_area_ge_half (a b : R) (pr : Riemann_integrable Gauss.kernel a b) :
  -1 <= a -> a <= b -> b <= 1 -> 1 / 2 * (b - a) <= RiemannInt pr.
Proof.
  intros Ha Hab Hb.
  rewrite <- (RiemannInt_P15 (RiemannInt_P14 a b (1 / 2))).
  apply RiemannInt_P19; [exact Hab|].
  intros x Hx. unfold fct_cte. apply kernel_ge_half. lra.
Qed.

Lemma sqrt_2PI_bounds : 0 < sqrt (2 * PI) < 3.
Proof.
  pose proof PI_RGT_0 as Hpi. pose proof PI_4 as Hpi4.
  split; [apply sqrt_lt_R0; lra|].
  rewrite <- (sqrt_square 3) by lra.
  apply sqrt_lt_1_alt. lra.
Qed.

Lemma Phi_at_minus_one : Gauss.Phi (-1) < 1 / 3.
Proof.
  unfold Gauss.Phi, Gauss.kernel_area.
  destruct (Rle_dec 0 (-1)) as [H | H]; [exfalso; lra|].
  match goal with |- context [RiemannInt ?pr] =>
    pose proof (kernel_area_ge_half (-1) 0 pr) as HI;
    set (I := RiemannInt pr) in *
  end.
  assert (HI' : 1 / 2 <= I) by lra.
  destruct sqrt_2PI_bounds as [Hs0 Hs3].
  set (s := sqrt (2 * PI)) in *.
  assert (Hq : 1 / 6 < I / s).
  { apply (Rmult_lt_reg_r s); [exact Hs0|].
    replace (I / s * s) with I by (field; lra). lra. }
  lra.
Qed.

Lemma Phi_at_one : 2 / 3 < Gauss.Phi 1.
Proof.
  unfold Gauss.Phi, Gauss.kernel_area.
  destruct (Rle_dec 0 1) as [H | H]; [|exfalso; lra].
  match goal with |- context [RiemannInt ?pr] =>
    pose proof (kernel_area_ge_half 0 1 pr) as HI;
    set (I := RiemannInt pr) in *
  end.
  assert (HI' : 1 / 2 <= I) by lra.
  destruct sqrt_2PI_bounds as [Hs0 Hs3].
  set (s := sqrt (2 * PI)) in *.
  assert (Hq : 1 / 6 < I / s).
  { apply (Rmult_lt_reg_r s); [exact Hs0|].
    replace (I / s * s) with I by (field; lra). lra. }
  lra.
Qed.

(** The mean and the deviation of the two members -1 and 1. *)
Lemma two_members_moments :
  nanmean [Some (-1); Some 1] = Some 0 /\ std [Some (-1); Some 1] = Some 1.
Proof.
  split.
  - unfold nanmean. cbn [Nan.finite flat_map app Rsum fold_right List.length INR].
    f_equal. field.
  - change [Some (-1); Some 1] with (map Some [-1; 1]). rewrite std_numbers.
    f_equal. cbn [Rsum map fold_right List.length INR].
    match goal with |- sqrt ?e = _ => replace e with 1 by field end.
    apply sqrt_1.
Qed.

(** C4, as stated, fails: with the two members -1 and 1 (mean 0, deviation
    1) and the boundaries -1 and 1 the middle category has the largest
    probability, above one third, and the signed output is 0, whose
    absolute value is not that maximum. *)
Lemma middle_dominant_gives_zero :
  exists (out : TercileProb) (l m u : R),
    calculate_tercile_prob None (mkDataArray [0%Z] [[Some (-1)]; [Some 1]])
                           (boundaries (-1) 1) = Py.Ok out /\
    tercile_prob out = [[((-1)%Z, Some l); (0%Z, Some m); (1%Z, Some u)]] /\
    nanmax [Some l; Some m; Some u] = Some m /\
    1 / 3 < m /\
    tercile_prob_max out = [Some 0] /\
    Rabs 0 <> m.
Proof.
  pose proof Phi_at_minus_one as Hl. pose proof Phi_at_one as Hu.
  set (l := Gauss.Phi (-1)) in *. set (u := 1 - Gauss.Phi 1).
  assert (Hu' : u < 1 / 3) by (unfold u; lra).
  assert (Hcell : tercile_prob_cell (Some 0) (Some 1) (Some (-1)) (Some 1)
                  = triple l u).
  { unfold tercile_prob_cell. rewrite !cdf_number by lra.
    replace ((-1 - 0) / 1) with (-1) by field.
    replace ((1 - 0) / 1) with 1 by field. reflexivity. }
  destruct (selector_cases l (1 - u - l) u) as [i [Hi [Hidx [Hmax [Hle _]]]]].
  assert (Hi1 : i = 1%nat).
  { inversion Hle as [| ? ? H1 Hle1]; subst.
    inversion Hle1 as [| ? ? H2 Hle2]; subst.
    inversion Hle2 as [| ? ? H3 _]; subst.
    destruct i as [| [| [| i]]]; [| reflexivity | | lia];
      cbn [nth] in *; exfalso; lra. }
  subst i. cbn [nth] in Hidx, Hmax.
  exists (mkTercileProb [0%Z] [triple l u] [Some 0]), l, (1 - u - l), u.
  split.
  - unfold calculate_tercile_prob, boundaries, bin_lead.
    cbn [Py.bind Py.Ok lead members t_lead f_lowmid f_midhigh snd nth].
    unfold over_member. cbn [List.length seq map].
    change (column [[Some (-1)]; [Some 1]] 0) with [Some (-1); Some 1].
    destruct two_members_moments as [Hmean Hstd]. rewrite Hmean, Hstd.
    unfold broadcast. cbn [List.length Nat.eqb Py.bind Py.Ok zip4 map].
    rewrite Hcell. unfold tercile_prob_max_cell.
    change (map snd (triple l u)) with [Some l; Some (1 - u - l); Some u].
    unfold triple. rewrite Hidx, Hmax. unfold fmul.
    replace (0 * (1 - u - l)) with 0 by ring. reflexivity.
  - split; [reflexivity|]. split; [exact Hmax|].
    split; [lra|]. split; [reflexivity|].
    rewrite Rabs_R0. lra.
Qed.

End DominantCategory.

(* ===================================================================== *)
(** * Facts: the climatological boundaries                                *)
(* ===================================================================== *)

Section ClimatologicalBoundaries.

Import Regional.
Local Open Scope Q_scope.

Local Abbreviation sorted := (StronglySorted (fun x y : Q => is_true (Qle_bool x y))).

Lemma leb_transitive : Transitive (fun x y : Q => is_true (Qle_bool x y)).
Proof.
  intros x y z Hxy Hyz. unfold is_true in *.
  rewrite Qle_bool_iff in *. eapply Qle_trans; eassumption.
Qed.

(** In a sorted sample a later position holds a larger value. *)
Lemma sorted_nth (a : list Q) (d : Q) :
  sorted a ->
  forall i j : nat, (i <= j)%nat -> (j < List.length a)%nat ->
                    nth i a d <= nth j a d.
Proof.
  induction 1 as [| x l Hs IH Hall]; intros i j Hij Hj.
  - simpl in Hj. lia.
  - simpl in Hj. destruct j as [| j].
    + assert (i = 0%nat) by lia. subst i. apply Qle_refl.
    + destruct i as [| i].
      * simpl. rewrite Forall_forall in Hall.
        apply Qle_bool_iff. apply Hall. apply nth_In. lia.
      * simpl. apply IH; lia.
Qed.

Lemma floor_fraction (v : Q) :
  0 <= v - inject_Z (Qfloor v) /\ v - inject_Z (Qfloor v) <= 1.
Proof.
  pose proof (Qfloor_le v) as H1. pose proof (Qlt_floor v) as H2.
  rewrite inject_Z_plus in H2. change (inject_Z 1) with 1 in H2.
  split; qlra.
Qed.


(** The interpolated value lies between its two neighbours. *)
Lemma interpolation_bounds (a : list Q) (a0 v : Q) :
  sorted a -> (0 < List.length a)%nat ->
  nth (Nat.min (Z.to_nat (Qfloor v)) (List.length a - 1)) a a0
  <= linear_interpolation a a0 v
  /\ linear_interpolation a a0 v
     <= nth (Nat.min (Z.to_nat (Qfloor v) + 1) (List.length a - 1)) a a0.
Proof.
  intros Hs Hn. unfold linear_interpolation. cbv zeta.
  set (k := Z.to_nat (Qfloor v)).
  assert (Hlohi : nth (Nat.min k (List.length a - 1)) a a0
                  <= nth (Nat.min (k + 1) (List.length a - 1)) a a0)
    by (apply sorted_nth; [exact Hs | lia | lia]).
  destruct (floor_fraction v) as [Hg0 Hg1].
  set (g := v - inject_Z (Qfloor v)) in *.
  set (lo := nth (Nat.min k (List.length a - 1)) a a0) in *.
  set (hi := nth (Nat.min (k + 1) (List.length a - 1)) a a0) in *.
  split; qnra.
Qed.








(** The sum over the grid of a value without horizontal dimensions,
    broadcast against [mask * area], is the value times the sum of
    [mask * area]. *)
Lemma nansum_broadcast (v : Q) (ws : list qval) :
  nansum (map (qmul (Some v)) ws) == v * nansum ws.
Proof.
  unfold nansum. induction ws as [| [w |] ws IH].
  - simpl. qlra.
  - cbn [map qmul Nan.finite flat_map app Qsum fold_right] in *.
    unfold Nan.finite, Qsum in IH. rewrite IH. qlra.
  - cbn [map qmul Nan.finite flat_map app] in *. exact IH.
Qed.

(** A pass of the loop over a variable that an earlier pass has already
    reduced gives the earlier value back, whatever the mask of the
    region, as long as the region has area. *)
Lemma regional_mean_of_reduced (v : Q) (mask area : list qval) :
  ~ nansum (mul2 mask area) == 0 ->
  exists w : Q,
    regional_mean (Reduced (Some v)) mask area = Reduced (Some w) /\ w == v.
Proof.
  intros Hden. unfold regional_mean, qdiv. cbn [times_mask_area].
  destruct (Qeq_bool (nansum (mul2 mask area)) 0) eqn:E.
  - apply Qeq_bool_iff in E. contradiction.
  - eexists. split; [reflexivity|].
    rewrite nansum_broadcast. field. exact Hden.
Qed.





(** C2: what the loop does on two regions.  The grid has two cells with the
    values 1 and 3 and equal areas; region A is the first cell and region B
    the second.  The mean of B by the formula is 3, and the loop gives B the
    mean of A, which is 1; with B before A, it gives A the mean of B. *)
Theorem later_region_takes_earlier_mean :
  exists a b a' b' : Q,
    regional_tercile (gridded [[[ [Some 1; Some 3] ]]])
                     [("areacello"%string, [Some 1; Some 1]);
                      ("A"%string, [Some 1; Some 0]);
                      ("B"%string, [Some 0; Some 1])]
    = Py.Ok [("A"%string, [(Some a, Some a)]); ("B"%string, [(Some b, Some b)])] /\
    regional_tercile (gridded [[[ [Some 1; Some 3] ]]])
                     [("areacello"%string, [Some 1; Some 1]);
                      ("B"%string, [Some 0; Some 1]);
                      ("A"%string, [Some 1; Some 0])]
    = Py.Ok [("B"%string, [(Some b', Some b')]); ("A"%string, [(Some a', Some a')])] /\
    a == 1 /\ b == 1 /\ a' == 3 /\ b' == 3 /\
    area_weighted_mean [Some 1; Some 3] [Some 1; Some 0] [Some 1; Some 1] = Some 1 /\
    area_weighted_mean [Some 1; Some 3] [Some 0; Some 1] [Some 1; Some 1] = Some 3.
Proof.
  exists (3 # 3), (3 # 3), (9 # 3), (9 # 3).
  split; [vm_compute; reflexivity|]. split; [vm_compute; reflexivity|].
  repeat split; reflexivity.
Qed.

End ClimatologicalBoundaries.

(* ===================================================================== *)
(** * Facts: the month test of [get_mom6] and the boundary files          *)
(* ===================================================================== *)

Section MonthTest.

Import Forecast.
Local Open Scope string_scope.

(** The list of [mom6_hindcast], file by file. *)
Lemma mom6_hindcast_files (dir : string) :
  mom6_hindcast dir
  = map (fun file => dir ++ file)
        [forecast_file "tob" 3; forecast_file "tob" 6;
         forecast_file "tob" 9; forecast_file "tob" 12;
         forecast_file "tos" 3; forecast_file "tos" 6;
         forecast_file "tos" 9; forecast_file "tos" 12].
Proof. reflexivity. Qed.

(** A number whose decimal writing is a given one. *)
Lemma to_int_is (m : Z) (d : Decimal.int) :
  Z.to_int m = d -> m = Z.of_int d.
Proof. intros E. rewrite <- E. symmetry. apply DecimalZ.of_to. Qed.

Ltac split_digit d :=
  destruct d as [| d | d | d | d | d | d | d | d | d | d].

(** Decides [f'i{m}' in file] on a file of the list for a month that is
    not one of the expected ones: the writing of [m] is taken apart digit
    by digit until the comparison with the path is settled. *)
Ltac settle_month m :=
  unfold Py.str;
  let d := fresh "d" in
  let E := fresh "E" in
  destruct (Z.to_int m) as [d | d] eqn:E;
  [ split_digit d; try (vm_compute; reflexivity);
    split_digit d; try (vm_compute; reflexivity);
    try (apply to_int_is in E; vm_compute in E; congruence);
    split_digit d; try (vm_compute; reflexivity);
    try (apply to_int_is in E; vm_compute in E; congruence)
  | vm_compute; reflexivity ].

Lemma month_flag_single (m k : Z) (dir name : string) :
  dir = raw_dir \/ dir = regrid_dir ->
  name = "tob" \/ name = "tos" ->
  k = 3%Z \/ k = 6%Z \/ k = 9%Z ->
  Py.contains ("i" ++ Py.str m) (dir ++ forecast_file name k) = (m =? k)%Z.
Proof.
  intros Hdir Hname Hk.
  destruct (Z.eq_dec m k) as [-> | Hne].
  - rewrite Z.eqb_refl.
    destruct Hdir as [-> | ->], Hname as [-> | ->], Hk as [-> | [-> | ->]];
      vm_compute; reflexivity.
  - rewrite (proj2 (Z.eqb_neq m k) Hne).
    destruct Hdir as [-> | ->], Hname as [-> | ->], Hk as [-> | [-> | ->]];
      settle_month m.
Qed.

Lemma month_flag_december (m : Z) (dir name : string) :
  dir = raw_dir \/ dir = regrid_dir ->
  name = "tob" \/ name = "tos" ->
  Py.contains ("i" ++ Py.str m) (dir ++ forecast_file name 12)
  = ((m =? 1) || (m =? 12))%Z.
Proof.
  intros Hdir Hname.
  destruct (Z.eq_dec m 1) as [-> | Hne1].
  - destruct Hdir as [-> | ->], Hname as [-> | ->]; vm_compute; reflexivity.
  - destruct (Z.eq_dec m 12) as [-> | Hne12].
    + destruct Hdir as [-> | ->], Hname as [-> | ->]; vm_compute; reflexivity.
    + rewrite (proj2 (Z.eqb_neq m 1) Hne1), (proj2 (Z.eqb_neq m 12) Hne12).
      destruct Hdir as [-> | ->], Hname as [-> | ->]; settle_month m.
Qed.

(** The files that pass the test of the loop, for the two variables of
    the list. *)
Lemma matching_served (self : mom6_forecast) (dir : string) :
  var self = "tob" \/ var self = "tos" ->
  dir = raw_dir \/ dir = regrid_dir ->
  matching self (mom6_hindcast dir)
  = match served_month (imonth self) with
    | Some k => [dir ++ forecast_file (var self) k]
    | None => []
    end.
Proof.
  destruct self as [v y m s]. cbn [var imonth]. intros Hv Hdir.
  unfold served_month.
  destruct (Z.eqb_spec m 3) as [-> | H3].
  { destruct Hv as [-> | ->], Hdir as [-> | ->]; vm_compute; reflexivity. }
  destruct (Z.eqb_spec m 6) as [-> | H6].
  { destruct Hv as [-> | ->], Hdir as [-> | ->]; vm_compute; reflexivity. }
  destruct (Z.eqb_spec m 9) as [-> | H9].
  { destruct Hv as [-> | ->], Hdir as [-> | ->]; vm_compute; reflexivity. }
  destruct (Z.eqb_spec m 1) as [-> | H1].
  { destruct Hv as [-> | ->], Hdir as [-> | ->]; vm_compute; reflexivity. }
  destruct (Z.eqb_spec m 12) as [-> | H12].
  { destruct Hv as [-> | ->], Hdir as [-> | ->]; vm_compute; reflexivity. }
  cbn [orb]. unfold matching. rewrite mom6_hindcast_files.
  cbn [map filter]. unfold imon_flag. cbn [imonth].
  rewrite (month_flag_single m 3 dir "tob"), (month_flag_single m 6 dir "tob"),
    (month_flag_single m 9 dir "tob"), (month_flag_december m dir "tob"),
    (month_flag_single m 3 dir "tos"), (month_flag_single m 6 dir "tos"),
    (month_flag_single m 9 dir "tos"), (month_flag_december m dir "tos")
    by auto.
  rewrite (proj2 (Z.eqb_neq m 3) H3), (proj2 (Z.eqb_neq m 6) H6),
    (proj2 (Z.eqb_neq m 9) H9), (proj2 (Z.eqb_neq m 1) H1),
    (proj2 (Z.eqb_neq m 12) H12).
  cbn [andb orb]. reflexivity.
Qed.

End MonthTest.



(** X2.  A [source] that is neither ['raw'] nor ['regrid'] is not
    rejected: [get_mom6] opens nothing and ends in [UnboundLocalError]
    where it returns [ds], and [get_mom6_tercile] opens nothing and
    returns [None]. *)
Theorem unknown_source_opens_nothing (self : Forecast.mom6_forecast) :
  String.eqb (Forecast.source self) "raw" = false ->
  String.eqb (Forecast.source self) "regrid" = false ->
  Forecast.run (Forecast.get_mom6 self) = (Py.Raise Py.UnboundLocalError, []) /\
  Forecast.run (Forecast.get_mom6_tercile self) = (Py.Ok None, []).
Proof.
  intros Hraw Hregrid.
  unfold Forecast.run, Forecast.get_mom6, Forecast.get_mom6_tercile.
  rewrite Hraw, Hregrid. split; reflexivity.
Qed.

Lemma unknown_source_opens_nothing_witness :
  Forecast.run (Forecast.get_mom6 (Forecast.mk_mom6_forecast "tos" 2021 3 "Regrid"))
  = (Py.Raise Py.UnboundLocalError, []) /\
  Forecast.run (Forecast.get_mom6_tercile
                  (Forecast.mk_mom6_forecast "tos" 2021 3 "Regrid"))
  = (Py.Ok None, []).
Proof.
  apply (unknown_source_opens_nothing
           (Forecast.mk_mom6_forecast "tos" 2021 3 "Regrid")); reflexivity.
Defined.

(** X3.  The two files behind one forecast on the regridded data:
    [get_mom6_tercile] opens the boundary file named after the requested
    month, [get_mom6] the forecast file that the month test lets through.
    The two have the same name for the months 3, 6, 9 and 12; for the month
    1 the forecast is read from the file of month 12 and the boundaries from
    a file of month 1. *)
Theorem forecast_and_boundary_files (self : Forecast.mom6_forecast) (k : Z) :
  Forecast.var self = "tob"%string \/ Forecast.var self = "tos"%string ->
  Forecast.source self = "regrid"%string ->
  Forecast.served_month (Forecast.imonth self) = Some k ->
  Forecast.opened (Forecast.get_mom6 self)
  = [(Forecast.regrid_dir
        ++ Forecast.forecast_file (Forecast.var self) k)%string] /\
  Forecast.opened (Forecast.get_mom6_tercile self)
  = [(Forecast.tercile_regrid_dir ++ "/"
        ++ Forecast.forecast_file (Forecast.var self) (Forecast.imonth self))%string] /\
  (k = Forecast.imonth self <-> Forecast.imonth self <> 1%Z).
Proof.
  intros Hv Hsrc Hk. split; [|split].
  - unfold Forecast.opened. rewrite (get_mom6_regrid self Hsrc).
    rewrite (matching_served self Forecast.regrid_dir Hv (or_intror eq_refl)).
    rewrite Hk. reflexivity.
  - unfold Forecast.opened, Forecast.run, Forecast.get_mom6_tercile.
    rewrite Hsrc. reflexivity.
  - unfold Forecast.served_month in Hk.
    destruct (Z.eqb_spec (Forecast.imonth self) 3);
      [injection Hk as <-; lia|].
    destruct (Z.eqb_spec (Forecast.imonth self) 6);
      [injection Hk as <-; lia|].
    destruct (Z.eqb_spec (Forecast.imonth self) 9);
      [injection Hk as <-; lia|].
    destruct (Z.eqb_spec (Forecast.imonth self) 1);
      [injection Hk as <-; lia|].
    destruct (Z.eqb_spec (Forecast.imonth self) 12);
      [injection Hk as <-; lia | discriminate Hk].
Qed.

Lemma forecast_and_boundary_files_witness :
  Forecast.opened (Forecast.get_mom6 (Forecast.mk_mom6_forecast "tos" 2021 1 "regrid"))
  = ["/Datasets.private/regional_mom6/hindcast/regrid/tos_forecasts_i12.nc"%string] /\
  Forecast.opened (Forecast.get_mom6_tercile
                     (Forecast.mk_mom6_forecast "tos" 2021 1 "regrid"))
  = ["/Datasets.private/regional_mom6/tercile_calculation/regrid//tos_forecasts_i1.nc"%string] /\
  (12%Z = 1%Z <-> 1%Z <> 1%Z).
Proof.
  apply (forecast_and_boundary_files
           (Forecast.mk_mom6_forecast "tos" 2021 1 "regrid") 12);
    [right; reflexivity | reflexivity | reflexivity].
Defined.

(* ===================================================================== *)
(** * Facts: the labels of [get_init_fcst_time]                           *)
(* ===================================================================== *)

Section ForecastPeriods.

Import FcstTime.
Local Open Scope Z_scope.

(** Adding months through [relativedelta] is arithmetic on the count of
    months: the carry to years is the quotient by 12. *)
Lemma add_months_arithmetic (y m k : Z) :
  1 <= m <= 12 ->
  add (mkDate y m) (relativedelta_months k)
  = if (1 <=? y + (m - 1 + k) / 12) && (y + (m - 1 + k) / 12 <=? 9999)
    then inr (mkDate (y + (m - 1 + k) / 12) ((m - 1 + k) mod 12 + 1))
    else inl ValueError.
Proof.
  intros Hm. unfold add, relativedelta_months.
  assert (Hpair :
    (let rd := if 11 <? Z.abs k
               then mkDelta ((k * Z.sgn k) / 12 * Z.sgn k)
                            ((k * Z.sgn k) mod 12 * Z.sgn k)
               else mkDelta 0 k in
     if 12 <? m + months rd then (y + years rd + 1, m + months rd - 12)
     else if m + months rd <? 1 then (y + years rd - 1, m + months rd + 12)
     else (y + years rd, m + months rd))
    = (y + (m - 1 + k) / 12, (m - 1 + k) mod 12 + 1)).
  { cbv zeta. destruct (11 <? Z.abs k) eqn:Ek; cbn [years months].
    - destruct (Z.sgn_spec k) as [[Hk0 ->] | [[Hk0 ->] | [Hk0 ->]]].
      + rewrite !Z.mul_1_r.
        destruct (12 <? _) eqn:E1; [| destruct (_ <? 1) eqn:E2];
          f_equal; Z.div_mod_to_equations; lia.
      + lia.
      + destruct (12 <? _) eqn:E1; [| destruct (_ <? 1) eqn:E2];
          f_equal; Z.div_mod_to_equations; lia.
    - destruct (12 <? _) eqn:E1; [| destruct (_ <? 1) eqn:E2];
        f_equal; Z.div_mod_to_equations; lia. }
  cbv zeta in Hpair. cbn [year month]. cbv zeta.
  rewrite Hpair. reflexivity.
Qed.

Lemma traverse_map {A B : Type} (f : A -> result B) (g : A -> B) (xs : list A) :
  Forall (fun x => f x = inr (g x)) xs ->
  traverse f xs = inr (map g xs).
Proof.
  induction 1 as [| x xs Hx _ IH]; [reflexivity|].
  cbn [traverse map]. rewrite Hx, IH. reflexivity.
Qed.

Lemma traverse_raises {A B : Type} (f : A -> result B) (e : exn) (xs : list A) :
  Forall (fun x => forall e', f x = inl e' -> e' = e) xs ->
  Exists (fun x => f x = inl e) xs ->
  traverse f xs = inl e.
Proof.
  induction xs as [| x xs IH]; intros Hall Hex.
  - inversion Hex.
  - cbn [traverse]. inversion Hall as [| ? ? Hx Hall']; subst.
    destruct (f x) as [e' | y] eqn:Ex.
    + rewrite (Hx e' eq_refl). reflexivity.
    + cbn [bind]. inversion Hex as [? ? Hhd | ? ? Htl]; subst.
      * congruence.
      * rewrite (IH Hall' Htl). reflexivity.
Qed.

(** [xs[i]] for a position of the list. *)
Lemma getitem_position {A : Type} (xs : list A) (i : Z) (d : A) :
  0 <= i < Z.of_nat (List.length xs) ->
  getitem xs i = inr (nth (Z.to_nat i) xs d).
Proof.
  intros Hi. unfold getitem.
  destruct (Z.ltb_spec i 0) as [Hneg | _]; [lia|].
  destruct (Z.leb_spec 0 i) as [_ | Hneg]; [|lia].
  destruct (Z.ltb_spec i (Z.of_nat (List.length xs))) as [_ | Hbig]; [|lia].
  cbn [andb].
  destruct (nth_error xs (Z.to_nat i)) as [x |] eqn:E.
  - now rewrite (nth_error_nth xs (Z.to_nat i) d E).
  - apply nth_error_None in E. lia.
Qed.

(** [xs[i]] outside the list, on either side. *)
Lemma getitem_outside {A : Type} (xs : list A) (i : Z) :
  i < - Z.of_nat (List.length xs) \/ Z.of_nat (List.length xs) <= i ->
  getitem xs i = inl IndexError.
Proof.
  intros Hi. unfold getitem.
  destruct (Z.ltb_spec i 0) as [Hneg | Hpos].
  - destruct (Z.leb_spec 0 (i + Z.of_nat (List.length xs))) as [H0 | _];
      [lia | reflexivity].
  - destruct (Z.ltb_spec i (Z.of_nat (List.length xs))) as [Hlt | _];
      [lia|]. now rewrite andb_false_r.
Qed.

Lemma getitem_only_index_error {A : Type} (xs : list A) (i : Z) (e : exn) :
  getitem xs i = inl e -> e = IndexError.
Proof.
  unfold getitem. destruct (_ && _); [destruct (nth_error _ _)|];
    intros H; congruence.
Qed.

Lemma range_12 (l : Z) : In l (Py.range 0 12 1) <-> 0 <= l <= 11.
Proof.
  change (Py.range 0 12 1) with [0; 1; 2; 3; 4; 5; 6; 7; 8; 9; 10; 11].
  cbn [In]. lia.
Qed.

Lemma month_name_of_date (y m : Z) :
  1 <= m <= 12 -> strftime_b (mkDate y m) = month_after_january (m - 1).
Proof.
  intros Hm. unfold month_after_january, strftime_b. cbn [month].
  rewrite Z.mod_small by lia.
  replace (m - 1 + 1 - 1) with (m - 1) by lia. reflexivity.
Qed.

(** The label of one period, by month arithmetic, when the initial year
    parses and the two dates of the period exist. *)
Lemma period_label_arithmetic (y m p l : Z) :
  1000 <= y <= 9999 -> 1 <= m <= 12 ->
  1 <= y + (m - 1 + l) / 12 <= 9999 ->
  1 <= y + (m - 1 + l + p) / 12 <= 9999 ->
  period_label (mkDate y m) p l = inr (label_by_arithmetic y m p l).
Proof.
  intros Hy Hm Hs Hf. unfold period_label, fromisoformat. cbn [year month].
  replace ((1000 <=? y) && (y <=? 9999) && (1 <=? m) && (m <=? 12)) with true
    by (symmetry; rewrite !andb_true_iff, !Z.leb_le; lia).
  cbn [bind]. rewrite !add_months_arithmetic by exact Hm.
  replace (m - 1 + (l + p)) with (m - 1 + l + p) by lia.
  replace ((1 <=? y + (m - 1 + l) / 12) && (y + (m - 1 + l) / 12 <=? 9999))
    with true by (symmetry; rewrite andb_true_iff, !Z.leb_le; lia).
  replace ((1 <=? y + (m - 1 + l + p) / 12)
             && (y + (m - 1 + l + p) / 12 <=? 9999))
    with true by (symmetry; rewrite andb_true_iff, !Z.leb_le; lia).
  cbn [bind]. reflexivity.
Qed.

(** The list of the twelve labels, read at a lead from 0 to 11. *)
Lemma getitem_of_twelve {B : Type} (g : Z -> B) (idx : Z) :
  0 <= idx <= 11 ->
  getitem (map g (Py.range 0 12 1)) idx = inr (g idx).
Proof.
  intros Hidx.
  change (Py.range 0 12 1) with [0; 1; 2; 3; 4; 5; 6; 7; 8; 9; 10; 11].
  assert (H : idx = 0 \/ idx = 1 \/ idx = 2 \/ idx = 3 \/ idx = 4 \/ idx = 5
              \/ idx = 6 \/ idx = 7 \/ idx = 8 \/ idx = 9 \/ idx = 10
              \/ idx = 11) by lia.
  repeat (destruct H as [-> | H]; [reflexivity|]). subst idx. reflexivity.
Qed.

(** The twelve labels of a valid initial time, for a period length from 0
    to 11 months. *)
Lemma twelve_labels (y m p : Z) :
  1000 <= y <= 9997 -> 1 <= m <= 12 -> 0 <= p <= 11 ->
  traverse (period_label (mkDate y m) p) (Py.range 0 12 1)
  = inr (map (label_by_arithmetic y m p) (Py.range 0 12 1)).
Proof.
  intros Hy Hm Hp. apply traverse_map. apply Forall_forall.
  intros l Hl. apply range_12 in Hl.
  apply period_label_arithmetic; try assumption; try lia;
    split; Z.div_mod_to_equations; lia.
Qed.

(** The twelve labels exist as soon as the initial year parses and the
    first and the last month of every period fall in the years 1 to 9999;
    it is enough to look at the periods of the leads 0 and 11. *)
Lemma twelve_labels_exist (y m p : Z) :
  1000 <= y <= 9999 -> 1 <= m <= 12 ->
  y + (m + 10) / 12 <= 9999 ->
  1 <= y + (m - 1 + p) / 12 ->
  y + (m + 10 + p) / 12 <= 9999 ->
  traverse (period_label (mkDate y m) p) (Py.range 0 12 1)
  = inr (map (label_by_arithmetic y m p) (Py.range 0 12 1)).
Proof.
  intros Hy Hm Hs Hlow Hhigh. apply traverse_map. apply Forall_forall.
  intros l Hl. apply range_12 in Hl.
  assert (H1 : (m - 1) / 12 <= (m - 1 + l) / 12 <= (m + 10) / 12)
    by (split; apply Z.div_le_mono; lia).
  assert (H2 : (m - 1 + p) / 12 <= (m - 1 + l + p) / 12 <= (m + 10 + p) / 12)
    by (split; apply Z.div_le_mono; lia).
  assert (H0 : 0 <= (m - 1) / 12) by (apply Z.div_pos; lia).
  apply period_label_arithmetic; try assumption; lia.
Qed.

Lemma cftime_datetime_valid (y m : Z) :
  1 <= m <= 12 -> cftime_datetime y m = inr (mkDate y m).
Proof.
  intros Hm. unfold cftime_datetime.
  replace ((1 <=? m) && (m <=? 12)) with true; [reflexivity|].
  symmetry. rewrite andb_true_iff, !Z.leb_le. lia.
Qed.

End ForecastPeriods.

(** X4.  For an initial time from the year 1000 to the year 9997, bins
    whose first two edges are 1 to 12 months apart and whose edges, the
    last one apart, are leads from 0 to 11, [get_init_fcst_time] returns
    one label per bin, by month arithmetic: the bin with left edge [l] is
    labelled with the month [l] months after the initial month, the month
    [lead_bins[1] - lead_bins[0] - 1] months later, and the year of that
    last month; ['init'] is the initial month and year. *)
Theorem get_init_fcst_time_labels
        (self : Forecast.mom6_forecast) (e0 e1 : Z) (rest : list Z) :
  (1000 <= Forecast.iyear self <= 9997)%Z ->
  (1 <= Forecast.imonth self <= 12)%Z ->
  (0 <= e1 - e0 - 1 <= 11)%Z ->
  Forall (fun idx => 0 <= idx <= 11)%Z (removelast (e0 :: e1 :: rest)) ->
  FcstTime.get_init_fcst_time self (e0 :: e1 :: rest)
  = inr (FcstTime.mkInitFcst
           (FcstTime.month_after_january (Forecast.imonth self - 1) ++ " "
              ++ Py.str (Forecast.iyear self))%string
           (map (FcstTime.label_by_arithmetic
                   (Forecast.iyear self) (Forecast.imonth self) (e1 - e0 - 1))
                (removelast (e0 :: e1 :: rest)))).
Proof.
  intros Hy Hm Hp Hidx. unfold FcstTime.get_init_fcst_time.
  rewrite cftime_datetime_valid by lia. cbn [FcstTime.bind].
  rewrite (getitem_position (e0 :: e1 :: rest) 1 0%Z)
    by (cbn [List.length]; lia).
  rewrite (getitem_position (e0 :: e1 :: rest) 0 0%Z)
    by (cbn [List.length]; lia).
  cbn [FcstTime.bind].
  change (nth (Z.to_nat 1) (e0 :: e1 :: rest) 0%Z) with e1.
  change (nth (Z.to_nat 0) (e0 :: e1 :: rest) 0%Z) with e0.
  rewrite (twelve_labels (Forecast.iyear self) (Forecast.imonth self)
                         (e1 - e0 - 1) Hy Hm Hp).
  cbn [FcstTime.bind].
  rewrite (traverse_map _
             (FcstTime.label_by_arithmetic
                (Forecast.iyear self) (Forecast.imonth self) (e1 - e0 - 1))).
  2:{ eapply Forall_impl; [|exact Hidx]. intros idx Hi.
      apply getitem_of_twelve. exact Hi. }
  cbn [FcstTime.bind]. unfold FcstTime.fromisoformat.
  cbn [FcstTime.year FcstTime.month].
  replace ((1000 <=? Forecast.iyear self) && (Forecast.iyear self <=? 9999)
             && (1 <=? Forecast.imonth self) && (Forecast.imonth self <=? 12))%Z
    with true by (symmetry; rewrite !andb_true_iff, !Z.leb_le; lia).
  cbn [FcstTime.bind]. unfold FcstTime.strftime_b_Y.
  rewrite month_name_of_date by lia. reflexivity.
Qed.

Lemma get_init_fcst_time_labels_witness :
  FcstTime.get_init_fcst_time (Forecast.mk_mom6_forecast "tos" 2020 11 "regrid")
                              [0; 3; 6; 9; 12]%Z
  = inr (FcstTime.mkInitFcst "Nov 2020"
           ["Nov-Jan 2021"; "Feb-Apr 2021"; "May-Jul 2021"; "Aug-Oct 2021"]%string).
Proof.
  apply (get_init_fcst_time_labels
           (Forecast.mk_mom6_forecast "tos" 2020 11 "regrid") 0 3 [6; 9; 12]%Z).
  - simpl. lia.
  - simpl. lia.
  - lia.
  - simpl. repeat constructor; lia.
Defined.

(** X5.  With fewer than two edges there is no period length to read:
    for a valid initial month and any year, [get_init_fcst_time] ends in
    [IndexError] at [lead_bins[1]]. *)
Theorem get_init_fcst_time_needs_two_edges
        (self : Forecast.mom6_forecast) (lead_bins : list Z) :
  (1 <= Forecast.imonth self <= 12)%Z ->
  (List.length lead_bins < 2)%nat ->
  FcstTime.get_init_fcst_time self lead_bins = inl FcstTime.IndexError.
Proof.
  intros Hm Hlen. unfold FcstTime.get_init_fcst_time.
  rewrite cftime_datetime_valid by assumption. cbn [FcstTime.bind].
  rewrite (getitem_outside lead_bins 1); [reflexivity|]. right. lia.
Qed.

Lemma get_init_fcst_time_needs_two_edges_witness :
  FcstTime.get_init_fcst_time (Forecast.mk_mom6_forecast "tos" 0 3 "regrid")
                              [12%Z]
  = inl FcstTime.IndexError.
Proof.
  apply (get_init_fcst_time_needs_two_edges
           (Forecast.mk_mom6_forecast "tos" 0 3 "regrid") [12%Z]).
  - simpl. lia.
  - simpl. lia.
Defined.

(** X6.  Only twelve labels are made, for the leads 0 to 11, and every
    edge but the last is used as a position in that list.  Whenever the
    twelve labels can be made (the initial year is one of 1000..9999, the
    month one of 1..12, and the first and the last month of every period
    fall in the years 1..9999, for the period length
    [lead_bins[1] - lead_bins[0] - 1]), an edge of 12 or more, or below
    -12, that is not the last one ends the call in [IndexError]. *)
Theorem get_init_fcst_time_edge_outside_year
        (self : Forecast.mom6_forecast) (e0 e1 : Z) (rest : list Z) :
  (1000 <= Forecast.iyear self <= 9999)%Z ->
  (1 <= Forecast.imonth self <= 12)%Z ->
  (Forecast.iyear self + (Forecast.imonth self + 10) / 12 <= 9999)%Z ->
  (1 <= Forecast.iyear self
        + (Forecast.imonth self - 1 + (e1 - e0 - 1)) / 12)%Z ->
  (Forecast.iyear self
   + (Forecast.imonth self + 10 + (e1 - e0 - 1)) / 12 <= 9999)%Z ->
  Exists (fun idx => idx < -12 \/ 12 <= idx)%Z (removelast (e0 :: e1 :: rest)) ->
  FcstTime.get_init_fcst_time self (e0 :: e1 :: rest) = inl FcstTime.IndexError.
Proof.
  intros Hy Hm Hs Hlow Hhigh Hidx. unfold FcstTime.get_init_fcst_time.
  rewrite cftime_datetime_valid by lia. cbn [FcstTime.bind].
  rewrite (getitem_position (e0 :: e1 :: rest) 1 0%Z)
    by (cbn [List.length]; lia).
  rewrite (getitem_position (e0 :: e1 :: rest) 0 0%Z)
    by (cbn [List.length]; lia).
  cbn [FcstTime.bind].
  change (nth (Z.to_nat 1) (e0 :: e1 :: rest) 0%Z) with e1.
  change (nth (Z.to_nat 0) (e0 :: e1 :: rest) 0%Z) with e0.
  rewrite (twelve_labels_exist (Forecast.iyear self) (Forecast.imonth self)
                               (e1 - e0 - 1) Hy Hm Hs Hlow Hhigh).
  cbn [FcstTime.bind].
  rewrite (traverse_raises _ FcstTime.IndexError); [reflexivity | |].
  - apply Forall_forall. intros idx _ e He.
    exact (getitem_only_index_error _ _ _ He).
  - eapply Exists_impl; [|exact Hidx]. intros idx Hi.
    apply getitem_outside. rewrite length_map.
    change (Z.of_nat (List.length (Py.range 0 12 1))) with 12%Z.
    cbv beta in Hi. lia.
Qed.

Lemma get_init_fcst_time_edge_outside_year_witness :
  FcstTime.get_init_fcst_time (Forecast.mk_mom6_forecast "tos" 2020 3 "regrid")
                              [0; 18; 36]%Z
  = inl FcstTime.IndexError.
Proof.
  apply (get_init_fcst_time_edge_outside_year
           (Forecast.mk_mom6_forecast "tos" 2020 3 "regrid") 0 18 [36]%Z).
  - simpl. lia.
  - simpl. lia.
  - vm_compute. discriminate.
  - vm_compute. discriminate.
  - vm_compute. discriminate.
  - simpl. apply Exists_cons_tl, Exists_cons_hd. lia.
Defined.

(** X7.  [get_init_fcst_time] never reads the last edge of three or more:
    the period length comes from the first two edges and the labels from
    all edges but the last, so two lists of bins that differ in the last
    edge only give the same result. *)
Theorem get_init_fcst_time_ignores_last_edge
        (self : Forecast.mom6_forecast) (edges : list Z) (x y : Z) :
  (2 <= List.length edges)%nat ->
  FcstTime.get_init_fcst_time self (edges ++ [x])
  = FcstTime.get_init_fcst_time self (edges ++ [y]).
Proof.
  intros Hlen. unfold FcstTime.get_init_fcst_time.
  rewrite !removelast_last.
  assert (Hfront : forall (i z : Z),
             (0 <= i < Z.of_nat (List.length edges))%Z ->
             FcstTime.getitem (edges ++ [z]) i
             = inr (nth (Z.to_nat i) edges 0%Z)).
  { intros i z Hi.
    rewrite (getitem_position (edges ++ [z]) i 0%Z)
      by (rewrite length_app; cbn [List.length]; lia).
    rewrite app_nth1 by lia. reflexivity. }
  rewrite !(Hfront 1%Z) by lia. rewrite !(Hfront 0%Z) by lia.
  reflexivity.
Qed.

Lemma get_init_fcst_time_ignores_last_edge_witness :
  FcstTime.get_init_fcst_time (Forecast.mk_mom6_forecast "tos" 2020 3 "regrid")
                              [0; 3; 12]%Z
  = FcstTime.get_init_fcst_time (Forecast.mk_mom6_forecast "tos" 2020 3 "regrid")
                                [0; 3; 4]%Z.
Proof.
  apply (get_init_fcst_time_ignores_last_edge
           (Forecast.mk_mom6_forecast "tos" 2020 3 "regrid") [0; 3]%Z 12 4).
  simpl. lia.
Defined.

(* ===================================================================== *)
(** * Facts: boundaries at the ensemble mean                             *)
(* ===================================================================== *)

Section BoundariesAtTheMean.

Import RArr Tercile.
Local Open Scope R_scope.

Lemma Phi_at_zero : Gauss.Phi 0 = 1 / 2.
Proof.
  unfold Gauss.Phi, Gauss.kernel_area.
  destruct (Rle_dec 0 0) as [H | H]; [| exfalso; lra].
  rewrite RiemannInt_P9. lra.
Qed.

(** The three probabilities of a cell with a positive deviation. *)
Lemma cell_numbers (m s lo hi : R) :
  0 < s ->
  tercile_prob_cell (Some m) (Some s) (Some lo) (Some hi)
  = [((-1)%Z, Some (Gauss.Phi ((lo - m) / s)));
     (0%Z, Some (1 - (1 - Gauss.Phi ((hi - m) / s)) - Gauss.Phi ((lo - m) / s)));
     (1%Z, Some (1 - Gauss.Phi ((hi - m) / s)))].
Proof.
  intros Hs. unfold tercile_prob_cell. rewrite !cdf_number by exact Hs.
  reflexivity.
Qed.

(** X9.  When both boundaries equal the ensemble mean and the deviation is
    positive, the probabilities are 1/2 below, 0 in the middle and 1/2
    above: the two outer categories tie, the first label in sequence order
    wins, and [tercile_prob_max] is -1/2. *)
Theorem boundaries_at_the_mean (m s : R) :
  0 < s ->
  tercile_prob_cell (Some m) (Some s) (Some m) (Some m)
  = [((-1)%Z, Some (1 / 2)); (0%Z, Some 0); (1%Z, Some (1 / 2))] /\
  tercile_prob_max_cell (tercile_prob_cell (Some m) (Some s) (Some m) (Some m))
  = Some (- (1 / 2)).
Proof.
  intros Hs.
  assert (Hcell : tercile_prob_cell (Some m) (Some s) (Some m) (Some m)
                  = [((-1)%Z, Some (1 / 2)); (0%Z, Some 0); (1%Z, Some (1 / 2))]).
  { rewrite (cell_numbers m s m m Hs).
    replace ((m - m) / s) with 0 by (field; lra).
    rewrite Phi_at_zero.
    replace (1 - (1 - 1 / 2) - 1 / 2) with 0 by lra.
    replace (1 - 1 / 2) with (1 / 2) by lra. reflexivity. }
  split; [exact Hcell|]. rewrite Hcell.
  destruct (selector_output (1 / 2) 0 (1 / 2)) as [i [Hi [_ [Hle [Hlt Hv]]]]].
  rewrite Hv.
  destruct i as [| [| [| i]]]; [| | | lia]; cbn [nth firstn] in *.
  - f_equal. lra.
  - exfalso. inversion Hle as [| ? ? H1 _]; subst. lra.
  - exfalso. inversion Hlt as [| ? ? H1 _]; subst. lra.
Qed.

Lemma boundaries_at_the_mean_witness :
  0 < 2 /\
  tercile_prob_cell (Some 10) (Some 2) (Some 10) (Some 10)
  = [((-1)%Z, Some (1 / 2)); (0%Z, Some 0); (1%Z, Some (1 / 2))] /\
  tercile_prob_max_cell (tercile_prob_cell (Some 10) (Some 2) (Some 10) (Some 10))
  = Some (- (1 / 2)).
Proof.
  split; [lra | apply (boundaries_at_the_mean 10 2); lra].
Defined.

End BoundariesAtTheMean.

(* ===================================================================== *)
(** * Facts: shapes and failures of [calculate_tercile_prob]             *)
(* ===================================================================== *)

Section ProbabilityDataset.

Import RArr Tercile.
Local Open Scope R_scope.

Lemma bin_intervals_length (lead_bins : list Z) :
  List.length (bin_intervals lead_bins) = (List.length lead_bins - 1)%nat.
Proof.
  induction lead_bins as [| a rest IH]; [reflexivity|].
  destruct rest as [| b rest]; [reflexivity|].
  change (bin_intervals (a :: b :: rest))
    with ((a, b) :: bin_intervals (b :: rest)).
  cbn [List.length] in *. rewrite IH. lia.
Qed.

Lemma arange_length (n : nat) : List.length (arange n) = n.
Proof. unfold arange. now rewrite length_map, length_seq. Qed.

Lemma over_member_length (reduce : list fval -> fval) (coord : list Z)
      (rows : list (list fval)) :
  List.length (over_member reduce coord rows) = List.length coord.
Proof. unfold over_member. now rewrite length_map, length_seq. Qed.

Lemma groupby_bins_mean_length (coord lead_bins : list Z) (row : list fval) :
  List.length (groupby_bins_mean coord lead_bins row)
  = (List.length lead_bins - 1)%nat.
Proof.
  unfold groupby_bins_mean. now rewrite length_map, bin_intervals_length.
Qed.

Lemma broadcast_same_length (n : nat) (xs : list fval) :
  List.length xs = n -> broadcast n xs = Py.Ok xs.
Proof. intros H. unfold broadcast. now rewrite H, Nat.eqb_refl. Qed.

Lemma zip4_length (n : nat) :
  forall a b c d : list fval,
    List.length a = n -> List.length b = n ->
    List.length c = n -> List.length d = n ->
    List.length (zip4 a b c d) = n.
Proof.
  induction n as [| n IH]; intros a b c d Ha Hb Hc Hd.
  - destruct a; [reflexivity | discriminate Ha].
  - destruct a as [| x a], b as [| y b], c as [| z c], d as [| w d];
      try discriminate.
    cbn [zip4 List.length]. f_equal. apply IH; cbn [List.length] in *; lia.
Qed.

(** X11.  With bins that the forecast leads and the boundary leads can
    both use (strictly increasing edges, and a lead inside some bin on each
    side), [calculate_tercile_prob] succeeds and its result has one window
    per bin, labelled 0, 1, ..., and in every window the three categories
    -1, 0, 1 in this order and one signed maximum. *)
Theorem binned_result_shape (lead_bins : list Z) (da : DataArray)
        (ds : TercileDataset) :
  bins_usable (lead da) lead_bins = true ->
  bins_usable (t_lead ds) lead_bins = true ->
  exists out : TercileProb,
    calculate_tercile_prob (Some lead_bins) da ds = Py.Ok out /\
    lead_bin out = arange (List.length lead_bins - 1) /\
    List.length (tercile_prob out) = (List.length lead_bins - 1)%nat /\
    List.length (tercile_prob_max out) = (List.length lead_bins - 1)%nat /\
    Forall (fun cell => map fst cell = [-1; 0; 1]%Z) (tercile_prob out).
Proof.
  intros Hda Hds. unfold calculate_tercile_prob, bin_lead.
  rewrite Hda, Hds. cbn [Py.bind Py.Ok snd map nth].
  set (n := (List.length lead_bins - 1)%nat).
  set (rows := map (groupby_bins_mean (lead da) lead_bins) (members da)).
  rewrite !over_member_length, arange_length.
  rewrite !broadcast_same_length by apply groupby_bins_mean_length.
  cbn [Py.bind Py.Ok].
  eexists. split; [reflexivity|]. cbn [lead_bin tercile_prob tercile_prob_max].
  assert (Hz : List.length
                 (zip4 (over_member nanmean (arange n) rows)
                       (over_member std (arange n) rows)
                       (groupby_bins_mean (t_lead ds) lead_bins (f_lowmid ds))
                       (groupby_bins_mean (t_lead ds) lead_bins (f_midhigh ds)))
               = n).
  { apply zip4_length;
      rewrite ?over_member_length, ?arange_length, ?groupby_bins_mean_length;
      reflexivity. }
  split; [reflexivity|]. rewrite !length_map, Hz.
  split; [reflexivity|]. split; [reflexivity|].
  apply Forall_forall. intros cell Hin. apply in_map_iff in Hin.
  destruct Hin as [[[[m s] lo] hi] [<- _]]. reflexivity.
Qed.

Lemma binned_result_shape_witness :
  exists out : TercileProb,
    calculate_tercile_prob (Some [0; 3; 6]%Z)
      (mkDataArray [1; 2; 3; 4; 5; 6]%Z
                   [[Some 1; Some 2; Some 3; Some 4; Some 5; Some 6]])
      (mkTercileDataset [1; 2; 3; 4; 5; 6]%Z
                        [Some 1; Some 1; Some 1; Some 1; Some 1; Some 1]
                        [Some 2; Some 2; Some 2; Some 2; Some 2; Some 2])
    = Py.Ok out /\
    lead_bin out = arange (3 - 1) /\
    List.length (tercile_prob out) = (3 - 1)%nat /\
    List.length (tercile_prob_max out) = (3 - 1)%nat /\
    Forall (fun cell => map fst cell = [-1; 0; 1]%Z) (tercile_prob out).
Proof.
  apply (binned_result_shape [0; 3; 6]%Z
           (mkDataArray [1; 2; 3; 4; 5; 6]%Z
                        [[Some 1; Some 2; Some 3; Some 4; Some 5; Some 6]])
           (mkTercileDataset [1; 2; 3; 4; 5; 6]%Z
                             [Some 1; Some 1; Some 1; Some 1; Some 1; Some 1]
                             [Some 2; Some 2; Some 2; Some 2; Some 2; Some 2]));
    reflexivity.
Defined.

(** X12.  Bins that the forecast leads cannot use make the call fail
    with [ValueError] before any probability is computed: edges that do not
    increase strictly, or a lead axis that lies entirely at or below the
    first edge or above the last one (the leads 0..11 against bins that
    start at 12, or the single lead 0 against bins that start at 0). *)
Theorem unusable_bins_raise (lead_bins : list Z) (da : DataArray)
        (ds : TercileDataset) :
  strictly_increasing lead_bins = false \/
  Forall (fun l => l <= hd 0 lead_bins \/ last lead_bins 0 < l)%Z (lead da) ->
  calculate_tercile_prob (Some lead_bins) da ds = Py.Raise Py.ValueError.
Proof.
  intros H.
  assert (Hbins : bins_usable (lead da) lead_bins = false).
  { unfold bins_usable.
    destruct (strictly_increasing lead_bins) eqn:Einc; [|reflexivity].
    destruct H as [H | H]; [discriminate H|]. cbn [andb].
    destruct (existsb _ (lead da)) eqn:E; [|reflexivity].
    apply existsb_exists in E. destruct E as [l [Hin Hl]].
    rewrite Forall_forall in H.
    rewrite (outside_all_intervals lead_bins l Einc (H l Hin)) in Hl.
    discriminate Hl. }
  unfold calculate_tercile_prob, bin_lead. rewrite Hbins. reflexivity.
Qed.

Lemma unusable_bins_raise_witness :
  calculate_tercile_prob (Some [0; 3; 6]%Z)
    (mkDataArray [0%Z] [[Some 1]; [Some 2]])
    (mkTercileDataset [0%Z] [Some 1] [Some 2])
  = Py.Raise Py.ValueError.
Proof.
  apply (unusable_bins_raise [0; 3; 6]%Z
           (mkDataArray [0%Z] [[Some 1]; [Some 2]])
           (mkTercileDataset [0%Z] [Some 1] [Some 2])).
  right. simpl. constructor; [left; lia | constructor].
Defined.

End ProbabilityDataset.

(* ===================================================================== *)
(** * Facts: the region loop and the written dataset                      *)
(* ===================================================================== *)

Section RegionLoop.

Import Regional.
Local Open Scope Q_scope.

(** The keys of the mask that the loop treats as regions. *)
Local Abbreviation region_keys ds_mask :=
  (filter (fun k => negb (String.eqb k "areacello")) (map fst ds_mask)).

Lemma tercile_of_length (d : Hindcast) :
  List.length (tercile_of d) = List.length d.
Proof. unfold tercile_of. apply length_map. Qed.

(** What the loop does to its three variables: the names of the regions
    are appended in the order of the keys, one array of boundaries is
    appended for each, and [da] keeps its number of leads. *)
Lemma region_loop_state (da_area : list qval)
      (ds_mask : list (string * list qval)) :
  forall st : LoopState,
    reg_list (region_loop da_area ds_mask st)
    = (reg_list st ++ region_keys ds_mask)%list /\
    List.length (reg_tercile_list (region_loop da_area ds_mask st))
    = (List.length (reg_tercile_list st)
       + List.length (region_keys ds_mask))%nat /\
    List.length (da (region_loop da_area ds_mask st)) = List.length (da st) /\
    (Forall (fun t => List.length t = List.length (da st)) (reg_tercile_list st) ->
     Forall (fun t => List.length t = List.length (da st))
            (reg_tercile_list (region_loop da_area ds_mask st))).
Proof.
  induction ds_mask as [| [region mask] rest IH]; intros st.
  - cbn [region_loop fold_left map filter]. rewrite app_nil_r.
    repeat split; auto.
  - unfold region_loop in *. cbn [fold_left map filter fst].
    unfold region_step at 2 4 6 8.
    destruct (String.eqb region "areacello") eqn:E; cbn [negb].
    + apply IH.
    + set (st' := mkLoopState _ _ _).
      destruct (IH st') as [H1 [H2 [H3 H4]]].
      subst st'. cbn [reg_list reg_tercile_list da] in *.
      rewrite length_app in H2. cbn [List.length] in *.
      rewrite !length_map in H3. rewrite !length_map in H4.
      repeat split.
      * rewrite H1, <- app_assoc. reflexivity.
      * rewrite H2. lia.
      * exact H3.
      * intros Hall. apply H4. apply Forall_app. split; [exact Hall|].
        constructor; [|constructor].
        rewrite tercile_of_length, !length_map. reflexivity.
Qed.

Lemma map_fst_combine_same {A B : Type} :
  forall (l1 : list A) (l2 : list B),
    List.length l1 = List.length l2 -> map fst (combine l1 l2) = l1.
Proof.
  induction l1 as [| a l1 IH]; intros [| b l2] H; try discriminate; [reflexivity|].
  cbn [combine map fst]. f_equal. apply IH. cbn [List.length] in H. lia.
Qed.

Lemma getitem_missing (ds_mask : list (string * list qval)) (name : string) :
  ~ In name (map fst ds_mask) -> getitem ds_mask name = Py.Raise Py.KeyError.
Proof.
  induction ds_mask as [| [k v] rest IH]; intros Hnot; [reflexivity|].
  cbn [getitem]. destruct (String.eqb_spec k name) as [-> | Hne].
  - exfalso. apply Hnot. left. reflexivity.
  - apply IH. intros Hin. apply Hnot. right. exact Hin.
Qed.

Lemma getitem_present (ds_mask : list (string * list qval)) (name : string) :
  In name (map fst ds_mask) -> exists v, getitem ds_mask name = Py.Ok v.
Proof.
  induction ds_mask as [| [k v] rest IH]; intros Hin; [destruct Hin|].
  cbn [getitem]. destruct (String.eqb_spec k name) as [-> | Hne].
  - exists v. reflexivity.
  - apply IH. destruct Hin as [Heq | Hin]; [contradiction | exact Hin].
Qed.

End RegionLoop.

(** X13.  The dataset written for a hindcast file has one region for every
    key of the mask other than [areacello], in the order of the keys, and
    for every region one pair of boundaries per lead of the variable. *)
Theorem regional_tercile_regions
        (ds_var : Regional.Hindcast) (ds_mask : list (string * list Regional.qval))
        (ds_tercile : Regional.TercileBoundaries) :
  Regional.regional_tercile ds_var ds_mask = Py.Ok ds_tercile ->
  map fst ds_tercile
  = filter (fun k => negb (String.eqb k "areacello")) (map fst ds_mask) /\
  Forall (fun entry => List.length (snd entry) = List.length ds_var) ds_tercile.
Proof.
  intros Hrun. unfold Regional.regional_tercile in Hrun.
  destruct (Regional.getitem ds_mask "areacello") as [e | da_area];
    [discriminate Hrun|].
  cbn [Py.bind] in Hrun.
  destruct (region_loop_state da_area ds_mask
              (Regional.mkLoopState ds_var [] [])) as [H1 [H2 [_ H4]]].
  cbn [Regional.reg_list Regional.reg_tercile_list Regional.da
       app List.length Nat.add] in *.
  specialize (H4 (Forall_nil _)).
  set (st := Regional.region_loop da_area ds_mask
               (Regional.mkLoopState ds_var [] [])) in *.
  destruct (Regional.reg_tercile_list st) as [| t ts] eqn:Hlist;
    [discriminate Hrun|].
  injection Hrun as Hrun. subst ds_tercile. split.
  - rewrite map_fst_combine_same; [exact H1|]. rewrite H1. symmetry. exact H2.
  - apply Forall_forall. intros [r entries] Hin. cbn [snd].
    apply in_combine_r in Hin. rewrite Forall_forall in H4. now apply H4.
Qed.

Lemma regional_tercile_regions_witness :
  map fst [("A"%string, [(Some (3 # 3), Some (3 # 3))]);
           ("B"%string, [(Some (3 # 3), Some (3 # 3))])]
  = filter (fun k => negb (String.eqb k "areacello"))
           (map fst [("areacello"%string, [Some 1; Some 1]);
                     ("A"%string, [Some 1; Some 0]);
                     ("B"%string, [Some 0; Some 1])]) /\
  Forall (fun entry => List.length (snd entry)
                       = List.length (Regional.gridded [[[ [Some 1; Some 3] ]]]))
         [("A"%string, [(Some (3 # 3), Some (3 # 3))]);
          ("B"%string, [(Some (3 # 3), Some (3 # 3))])].
Proof.
  apply (regional_tercile_regions
           (Regional.gridded [[[ [Some 1; Some 3] ]]])
           [("areacello"%string, [Some 1; Some 1]);
            ("A"%string, [Some 1; Some 0]);
            ("B"%string, [Some 0; Some 1])]).
  vm_compute. reflexivity.
Defined.

(** X14.  The two ways a run over one file fails before anything is
    written: a mask without the key [areacello] ends in [KeyError], and a
    mask that has [areacello] and no region ends in the [ValueError] of
    [xr.concat] on an empty list. *)
Theorem regional_tercile_failures
        (ds_var : Regional.Hindcast) (ds_mask : list (string * list Regional.qval)) :
  (~ In "areacello"%string (map fst ds_mask) ->
   Regional.regional_tercile ds_var ds_mask = Py.Raise Py.KeyError) /\
  (In "areacello"%string (map fst ds_mask) ->
   filter (fun k => negb (String.eqb k "areacello")) (map fst ds_mask) = [] ->
   Regional.regional_tercile ds_var ds_mask = Py.Raise Py.ValueError).
Proof.
  split.
  - intros Hnot. unfold Regional.regional_tercile.
    rewrite (getitem_missing ds_mask "areacello" Hnot). reflexivity.
  - intros Hin Hnone. unfold Regional.regional_tercile.
    destruct (getitem_present ds_mask "areacello" Hin) as [da_area ->].
    cbn [Py.bind Py.Ok].
    destruct (region_loop_state da_area ds_mask
                (Regional.mkLoopState ds_var [] [])) as [_ [H2 _]].
    rewrite Hnone in H2. cbn [Regional.reg_tercile_list List.length Nat.add] in H2.
    destruct (Regional.reg_tercile_list _); [reflexivity | discriminate H2].
Qed.

Lemma regional_tercile_failures_witness :
  Regional.regional_tercile (Regional.gridded [[[ [Some 1; Some 3] ]]])
                            [("areacello"%string, [Some 1; Some 1])]
  = Py.Raise Py.ValueError.
Proof.
  apply (proj2 (regional_tercile_failures
                  (Regional.gridded [[[ [Some 1; Some 3] ]]])
                  [("areacello"%string, [Some 1; Some 1])])).
  - simpl. left. reflexivity.
  - reflexivity.
Defined.

Section FirstAndLaterRegions.

Import Regional.
Local Open Scope Q_scope.

(** The arrays of boundaries that the loop has appended stay where they
    are. *)
Lemma region_loop_appends (da_area : list qval)
      (ds_mask : list (string * list qval)) :
  forall st : LoopState,
    exists more,
      reg_tercile_list (region_loop da_area ds_mask st)
      = (reg_tercile_list st ++ more)%list.
Proof.
  induction ds_mask as [| [region mask] rest IH]; intros st.
  - exists []. cbn [region_loop fold_left]. now rewrite app_nil_r.
  - unfold region_loop in *. cbn [fold_left].
    unfold region_step at 2.
    destruct (String.eqb region "areacello"); [apply IH|].
    destruct (IH (mkLoopState
                    (map (map (map (fun x => regional_mean x mask da_area))) (da st))
                    (reg_tercile_list st
                       ++ [tercile_of
                             (map (map (map (fun x => regional_mean x mask da_area)))
                                  (da st))])
                    (reg_list st ++ [region]))) as [more Hmore].
    cbn [reg_tercile_list] in Hmore. rewrite <- app_assoc in Hmore.
    eexists. exact Hmore.
Qed.

(** The pooled sample of the first pass, from the gridded variable. *)
Lemma first_pass_sample (mask da_area : list qval)
      (per_init : list (list (list qval))) :
  stack_allens
    (map (map (fun x => regional_mean x mask da_area)) (map (map Grid) per_init))
  = map (fun cells => area_weighted_mean cells mask da_area)
        (List.concat per_init).
Proof.
  unfold stack_allens. rewrite !concat_map, !map_map. f_equal.
  apply map_ext. intros row. rewrite !map_map. apply map_ext.
  intros cells. reflexivity.
Qed.

Lemma In_finite (a : Q) (xs : list qval) :
  In a (Nan.finite xs) -> In (Some a) xs.
Proof.
  unfold Nan.finite. intros H. apply in_flat_map in H.
  destruct H as [[x |] [Hin Hx]]; [|destruct Hx].
  destruct Hx as [<- | []]. exact Hin.
Qed.

End FirstAndLaterRegions.

(** X15.  The first region of a run gets what the documentation says: with
    [areacello] as the first key and a region [r] as the second, the entry
    of [r] holds, for every lead, the quantiles 1/3 and 2/3 of the pooled
    area-weighted means [sum(value*mask*area) / sum(mask*area)] of the
    gridded variable. *)
Theorem first_region_by_the_formula
        (cells_of : list (list (list (list Regional.qval))))
        (da_area mask : list Regional.qval) (r : string)
        (rest : list (string * list Regional.qval)) :
  String.eqb r "areacello" = false ->
  exists tail : Regional.TercileBoundaries,
    Regional.regional_tercile (Regional.gridded cells_of)
      (("areacello"%string, da_area) :: (r, mask) :: rest)
    = Py.Ok
        ((r, map (fun per_init =>
                    let sample :=
                      map (fun cells =>
                             Regional.area_weighted_mean cells mask da_area)
                          (List.concat per_init) in
                    (Regional.nanquantile (1 # 3) sample,
                     Regional.nanquantile (2 # 3) sample)) cells_of)
         :: tail).
Proof.
  intros Hr.
  set (st0 := Regional.mkLoopState (Regional.gridded cells_of) [] []).
  set (da1 := map (map (map (fun x => Regional.regional_mean x mask da_area)))
                  (Regional.gridded cells_of)).
  assert (Hs1 : Regional.region_step da_area st0 ("areacello"%string, da_area)
                = st0) by reflexivity.
  assert (Hs2 : Regional.region_step da_area st0 (r, mask)
                = Regional.mkLoopState da1 [Regional.tercile_of da1] [r]).
  { unfold Regional.region_step. rewrite Hr. reflexivity. }
  assert (Hget : Regional.getitem (("areacello"%string, da_area) :: (r, mask) :: rest)
                                  "areacello" = Py.Ok da_area) by reflexivity.
  unfold Regional.regional_tercile. rewrite Hget. cbn [Py.bind Py.Ok].
  unfold Regional.region_loop. cbn [fold_left]. fold st0. rewrite Hs1, Hs2.
  set (st1 := Regional.mkLoopState da1 [Regional.tercile_of da1] [r]).
  destruct (region_loop_appends da_area rest st1) as [more Hmore].
  destruct (region_loop_state da_area rest st1) as [Hnames _].
  unfold Regional.region_loop in Hmore, Hnames. rewrite Hmore, Hnames.
  subst st1. cbn [Regional.reg_tercile_list Regional.reg_list app combine].
  eexists. f_equal. f_equal. f_equal.
  subst da1. unfold Regional.tercile_of, Regional.gridded. rewrite !map_map.
  apply map_ext. intros per_init. cbv zeta.
  rewrite <- (first_pass_sample mask da_area per_init).
  rewrite !map_map. reflexivity.
Qed.

Lemma first_region_by_the_formula_witness :
  exists tail : Regional.TercileBoundaries,
    Regional.regional_tercile (Regional.gridded [[[ [Some 1; Some 3] ]]])
      [("areacello"%string, [Some 1; Some 1]);
       ("B"%string, [Some 0; Some 1]);
       ("A"%string, [Some 1; Some 0])]
    = Py.Ok
        (("B"%string,
          map (fun per_init =>
                 let sample :=
                   map (fun cells =>
                          Regional.area_weighted_mean cells [Some 0; Some 1]
                                                      [Some 1; Some 1])
                       (List.concat per_init) in
                 (Regional.nanquantile (1 # 3) sample,
                  Regional.nanquantile (2 # 3) sample)) [[[ [Some 1; Some 3] ]]])
         :: tail).
Proof.
  apply (first_region_by_the_formula [[[ [Some 1; Some 3] ]]]
           [Some 1; Some 1] [Some 0; Some 1] "B"%string
           [("A"%string, [Some 1; Some 0])]).
  reflexivity.
Defined.

Section ReducedVariable.

Import Regional.
Local Open Scope Q_scope.

Lemma finite_of_nan_products (ws : list qval) :
  Nan.finite (map (qmul None) ws) = [].
Proof.
  unfold Nan.finite. induction ws as [| w ws IH]; [reflexivity|].
  cbn [map flat_map qmul app]. exact IH.
Qed.

End ReducedVariable.

(** X16.  A pass of the region loop over a variable that an earlier pass
    has already reduced does not look at the grid again: for any region
    with area, a number comes back as the same number, and NaN (an earlier
    region without area) comes back as 0, because the sum skips NaN. *)
Theorem pass_over_reduced_variable (v : Q) (mask area : list Regional.qval) :
  ~ Regional.nansum (Regional.mul2 mask area) == 0 ->
  (exists w : Q,
      Regional.regional_mean (Regional.Reduced (Some v)) mask area
      = Regional.Reduced (Some w) /\ w == v) /\
  (exists z : Q,
      Regional.regional_mean (Regional.Reduced None) mask area
      = Regional.Reduced (Some z) /\ z == 0).
Proof.
  intros Hden. split; [exact (regional_mean_of_reduced v mask area Hden)|].
  unfold Regional.regional_mean, Regional.qdiv. cbn [Regional.times_mask_area].
  destruct (Qeq_bool (Regional.nansum (Regional.mul2 mask area)) 0) eqn:E.
  - apply Qeq_bool_iff in E. contradiction.
  - eexists. split; [reflexivity|].
    unfold Regional.nansum at 1. rewrite finite_of_nan_products.
    cbn [Regional.Qsum fold_right]. field. exact Hden.
Qed.

Lemma pass_over_reduced_variable_witness :
  (exists w : Q,
      Regional.regional_mean (Regional.Reduced (Some 1)) [Some 0; Some 1]
                             [Some 1; Some 1]
      = Regional.Reduced (Some w) /\ w == 1) /\
  (exists z : Q,
      Regional.regional_mean (Regional.Reduced None) [Some 0; Some 1]
                             [Some 1; Some 1]
      = Regional.Reduced (Some z) /\ z == 0).
Proof.
  apply (pass_over_reduced_variable 1 [Some 0; Some 1] [Some 1; Some 1]).
  intros H. vm_compute in H. discriminate H.
Defined.

(** X17.  A boundary is never outside the pooled sample: for a quantile
    level between 0 and 1, the interpolated value lies between two numbers
    of the sample (NaN members are left out). *)
Theorem quantile_within_sample (q : Q) (xs : list Regional.qval) (v : Q) :
  0 <= q <= 1 ->
  Regional.nanquantile q xs = Some v ->
  exists a b : Q, In (Some a) xs /\ In (Some b) xs /\ a <= v <= b.
Proof.
  intros _ Hq. unfold Regional.nanquantile in Hq.
  pose proof (QSort.StronglySorted_sort (Nan.finite xs) leb_transitive) as Hs.
  pose proof (QSort.Permuted_sort (Nan.finite xs)) as Hperm.
  destruct (QSort.sort (Nan.finite xs)) as [| a0 l]; [discriminate Hq|].
  cbv zeta in Hq.
  set (virtual := (inject_Z (Z.of_nat (List.length (a0 :: l))) - 1) * q) in *.
  assert (Hv : Regional.linear_interpolation (a0 :: l) a0 virtual = v)
    by congruence.
  destruct (interpolation_bounds (a0 :: l) a0 virtual Hs) as [Hlo Hhi];
    [simpl; lia|].
  rewrite Hv in Hlo, Hhi.
  assert (Hin : forall i : nat,
             (i < List.length (a0 :: l))%nat ->
             In (Some (nth i (a0 :: l) a0)) xs).
  { intros i Hi. apply In_finite.
    apply (Permutation_in _ (Permutation_sym Hperm)). apply nth_In. exact Hi. }
  eexists _, _. split; [|split; [|split; [exact Hlo | exact Hhi]]];
    apply Hin; simpl List.length; lia.
Qed.

Lemma quantile_within_sample_witness :
  exists a b : Q,
    In (Some a) [Some 4; Some 1; None; Some 3; Some 2] /\
    In (Some b) [Some 4; Some 1; None; Some 3; Some 2] /\
    a <= 6 # 3 <= b.
Proof.
  apply (quantile_within_sample (1 # 3) [Some 4; Some 1; None; Some 3; Some 2]).
  - split; unfold Qle; simpl; lia.
  - vm_compute. reflexivity.
Defined.

(* ===================================================================== *)
(** * Facts: the files of a run of the script                            *)
(* ===================================================================== *)

Section ScriptFiles.

Import Script.
Local Open Scope string_scope.

Lemma string_length_append (s t : string) :
  String.length (s ++ t) = (String.length s + String.length t)%nat.
Proof. induction s as [| c s IH]; [reflexivity|]. simpl. now rewrite IH. Qed.

Lemma substring_after (s t : string) (n : nat) :
  String.substring (String.length s) n (s ++ t) = String.substring 0 n t.
Proof. induction s as [| c s IH]; [reflexivity|]. simpl. exact IH. Qed.

Lemma substring_front (s t : string) :
  String.substring 0 (String.length s) (s ++ t) = s.
Proof. induction s as [| c s IH]; [destruct t; reflexivity|]. simpl. now rewrite IH. Qed.

Lemma append_cancel_left (a x y : string) : a ++ x = a ++ y -> x = y.
Proof.
  induction a as [| c a IH]; intros H; [exact H|].
  simpl in H. injection H as H. apply IH. exact H.
Qed.

Lemma append_cancel_right (b : string) :
  forall x y : string, x ++ b = y ++ b -> x = y.
Proof.
  induction x as [| c x IH]; intros [| d y] H.
  - reflexivity.
  - exfalso. apply (f_equal String.length) in H.
    simpl in H. rewrite string_length_append in H. lia.
  - exfalso. apply (f_equal String.length) in H.
    simpl in H. rewrite string_length_append in H. lia.
  - simpl in H. injection H as Hc H. subst d. f_equal. apply IH. exact H.
Qed.

(** The name between the directory and a three-letter extension. *)
Lemma slice_of_hindcast_file (name ext : string) :
  String.length ext = 3%nat ->
  Py.slice_to_last (MOM6_DIR ++ name ++ ext) (String.length MOM6_DIR) 3 = name.
Proof.
  intros Hext. unfold Py.slice_to_last.
  rewrite !string_length_append, Hext.
  replace (String.length MOM6_DIR + (String.length name + 3) - 3
           - String.length MOM6_DIR)%nat
    with (String.length name) by lia.
  rewrite substring_after. apply substring_front.
Qed.




End ScriptFiles.

(** X18.  The output path of a hindcast file keeps the name of the file:
    for a file [MOM6_DIR + name + ext] with a three-letter extension, the
    dataset is written to [MOM6_TERCILE_DIR + name + '.region.nc'], and two
    files with different names are written to different paths. *)
Theorem output_path_keeps_name (name ext name' ext' : string) :
  String.length ext = 3%nat ->
  String.length ext' = 3%nat ->
  Script.output_path (Script.MOM6_DIR ++ name ++ ext)
  = (Script.MOM6_TERCILE_DIR ++ name ++ ".region.nc")%string /\
  (Script.output_path (Script.MOM6_DIR ++ name ++ ext)
   = Script.output_path (Script.MOM6_DIR ++ name' ++ ext') -> name = name').
Proof.
  intros Hext Hext'.
  assert (Hout : forall n e, String.length e = 3%nat ->
             Script.output_path (Script.MOM6_DIR ++ n ++ e)
             = (Script.MOM6_TERCILE_DIR ++ n ++ ".region.nc")%string).
  { intros n e He. unfold Script.output_path.
    now rewrite (slice_of_hindcast_file n e He). }
  split; [exact (Hout name ext Hext)|].
  rewrite (Hout name ext Hext), (Hout name' ext' Hext'). intros H.
  apply append_cancel_left in H. apply append_cancel_right in H. exact H.
Qed.

Lemma output_path_keeps_name_witness :
  Script.output_path "/Datasets.private/regional_mom6/hindcast/tos_forecasts_i3.nc"
  = "/Datasets.private/regional_mom6/tercile_calculation/tos_forecasts_i3.region.nc"%string /\
  (Script.output_path "/Datasets.private/regional_mom6/hindcast/tos_forecasts_i3.nc"
   = Script.output_path "/Datasets.private/regional_mom6/hindcast/tos_forecasts_i3.nc"
   -> "tos_forecasts_i3"%string = "tos_forecasts_i3"%string).
Proof.
  apply (output_path_keeps_name "tos_forecasts_i3" ".nc" "tos_forecasts_i3" ".nc");
    reflexivity.
Defined.



(* ===================================================================== *)
(** * Facts: members without data                                        *)
(* ===================================================================== *)

Section MissingMember.

Import RArr Tercile.
Local Open Scope R_scope.

Lemma finite_with_nan (xs : list fval) :
  Nan.finite (xs ++ [None]) = Nan.finite xs.
Proof.
  unfold Nan.finite. rewrite flat_map_app. cbn [flat_map app].
  apply app_nil_r.
Qed.

Lemma finite_all_nan (xs : list fval) :
  Forall (eq None) xs -> Nan.finite xs = [].
Proof.
  unfold Nan.finite. induction 1 as [| x xs Hx _ IH]; [reflexivity|].
  subst x. cbn [flat_map app]. exact IH.
Qed.

Lemma nanmean_with_nan (xs : list fval) : nanmean (xs ++ [None]) = nanmean xs.
Proof. unfold nanmean. now rewrite finite_with_nan. Qed.

Lemma std_with_nan (xs : list fval) : std (xs ++ [None]) = std xs.
Proof. unfold std, nanstd, nanvar. now rewrite finite_with_nan. Qed.

Lemma nth_all_nan (row : list fval) (j : nat) :
  Forall (eq None) row -> nth j row None = None.
Proof.
  intros H. destruct (Nat.lt_ge_cases j (List.length row)) as [Hlt | Hge].
  - rewrite Forall_forall in H. symmetry. apply H. apply nth_In. exact Hlt.
  - apply nth_overflow. exact Hge.
Qed.

(** The bin means of a row without data are without data. *)
Lemma groupby_bins_mean_all_nan (coord lead_bins : list Z) (row : list fval) :
  Forall (eq None) row ->
  Forall (eq None) (groupby_bins_mean coord lead_bins row).
Proof.
  intros H. unfold groupby_bins_mean. apply Forall_forall.
  intros x Hin. apply in_map_iff in Hin. destruct Hin as [iv [<- _]].
  unfold nanmean. rewrite finite_all_nan; [reflexivity|].
  unfold bin_members. apply Forall_forall. intros y Hy.
  apply in_map_iff in Hy. destruct Hy as [[l v] [<- Hp]].
  apply filter_In in Hp. destruct Hp as [Hp _].
  apply in_combine_r in Hp. rewrite Forall_forall in H. now apply H.
Qed.

Lemma over_member_with_nan_row (reduce : list fval -> fval) (coord : list Z)
      (rows : list (list fval)) (row : list fval) :
  (forall xs, reduce (xs ++ [None]) = reduce xs) ->
  Forall (eq None) row ->
  over_member reduce coord (rows ++ [row]) = over_member reduce coord rows.
Proof.
  intros Hred Hrow. unfold over_member. apply map_ext. intros j.
  unfold column. rewrite map_app.
  change (map (fun r => nth j r None) [row]) with [nth j row None].
  rewrite (nth_all_nan row j Hrow). apply Hred.
Qed.

(** X20.  A member without data changes nothing: adding to the ensemble a
    member that is NaN at every lead leaves the whole result of
    [calculate_tercile_prob] as it was, with or without lead bins, because
    the bin means, the ensemble mean and the deviation all skip NaN. *)
Theorem missing_member_is_ignored
        (lead_bins : option (list Z)) (coord : list Z)
        (rows : list (list fval)) (row : list fval) (ds : TercileDataset) :
  Forall (eq None) row ->
  calculate_tercile_prob lead_bins (mkDataArray coord (rows ++ [row])) ds
  = calculate_tercile_prob lead_bins (mkDataArray coord rows) ds.
Proof.
  intros Hrow. unfold calculate_tercile_prob, bin_lead. cbn [lead members].
  destruct lead_bins as [bins |].
  - destruct (bins_usable coord bins); [|reflexivity].
    cbn [Py.bind Py.Ok]. rewrite map_app. cbn [map].
    rewrite !(over_member_with_nan_row _ _ _ _ nanmean_with_nan
                (groupby_bins_mean_all_nan coord bins row Hrow)).
    rewrite !(over_member_with_nan_row _ _ _ _ std_with_nan
                (groupby_bins_mean_all_nan coord bins row Hrow)).
    reflexivity.
  - cbn [Py.bind Py.Ok].
    rewrite !(over_member_with_nan_row _ _ _ _ nanmean_with_nan Hrow).
    rewrite !(over_member_with_nan_row _ _ _ _ std_with_nan Hrow).
    reflexivity.
Qed.

Lemma missing_member_is_ignored_witness :
  calculate_tercile_prob None
    (mkDataArray [0%Z] ([[Some (-1)]; [Some 1]] ++ [[None]]))
    (boundaries (-1) 1)
  = calculate_tercile_prob None
      (mkDataArray [0%Z] [[Some (-1)]; [Some 1]]) (boundaries (-1) 1).
Proof.
  apply (missing_member_is_ignored None [0%Z] [[Some (-1)]; [Some 1]] [None]
                                   (boundaries (-1) 1)).
  constructor; [reflexivity | constructor].
Defined.

End MissingMember.

(* ===================================================================== *)
(** * Facts: a run of the script over several files                      *)
(* ===================================================================== *)

Section ScriptRun.

Import Script.
Local Open Scope string_scope.

Lemma process_app_ok (w : World) (varname : string) (pre post : list string) :
  Forall (fun file => exists ds, tercile_for w varname file = Py.Ok ds) pre ->
  fst (process w varname (pre ++ post)) = fst (process w varname post) /\
  snd (process w varname (pre ++ post))
  = (snd (process w varname pre) ++ snd (process w varname post))%list.
Proof.
  induction 1 as [| file pre [ds Hds] _ IH]; [split; reflexivity|].
  cbn [app process]. unfold Py.Ok in Hds. rewrite Hds.
  destruct (process w varname (pre ++ post)) as [o1 l1].
  destruct (process w varname pre) as [o2 l2].
  cbn [fst snd] in *. destruct IH as [IH1 IH2]. subst o1 l1.
  split; [reflexivity|]. cbn [app]. reflexivity.
Qed.

End ScriptRun.

(** X21.  A file that cannot be written does not stop the run: when the
    boundaries can be computed for every selected file, the run reaches its
    end, every file is opened in the order of the list, and a dataset is
    written for exactly the files whose output path can be written (the
    [PermissionError] of the others is reported and dropped). *)
Theorem unwritable_file_does_not_stop_the_run
        (w : Script.World) (varname : string) (files : list string) :
  Forall (fun file => exists ds, Script.tercile_for w varname file = Py.Ok ds)
         files ->
  fst (Script.process w varname files) = Script.Finished /\
  Script.opened_files (snd (Script.process w varname files)) = files /\
  Script.written_paths (snd (Script.process w varname files))
  = filter (Script.writable w) (map Script.output_path files).
Proof.
  induction 1 as [| file files [ds Hds] _ IH]; [repeat split|].
  cbn [Script.process]. unfold Py.Ok in Hds. rewrite Hds.
  destruct (Script.process w varname files) as [o l].
  cbn [fst snd] in *. destruct IH as [IH1 [IH2 IH3]].
  split; [exact IH1|]. split.
  - unfold Script.opened_files in *. cbn [flat_map app].
    destruct (Script.writable w (Script.output_path file)); cbn [flat_map app];
      now rewrite IH2.
  - unfold Script.written_paths in *. cbn [flat_map app map filter].
    destruct (Script.writable w (Script.output_path file)); cbn [flat_map app];
      now rewrite IH3.
Qed.

Lemma unwritable_file_does_not_stop_the_run_witness :
  let w := Script.mkWorld
             (fun _ _ => Py.Ok (Regional.gridded [[[ [Some 1%Q; Some 3%Q] ]]]))
             [("areacello"%string, [Some 1%Q; Some 1%Q]);
              ("A"%string, [Some 1%Q; Some 0%Q])]
             (fun path => String.eqb path
                "/Datasets.private/regional_mom6/tercile_calculation/tos_forecasts_i6.region.nc") in
  let files := ["/Datasets.private/regional_mom6/hindcast/tos_forecasts_i3.nc"%string;
                "/Datasets.private/regional_mom6/hindcast/tos_forecasts_i6.nc"%string] in
  fst (Script.process w "tos" files) = Script.Finished /\
  Script.opened_files (snd (Script.process w "tos" files)) = files /\
  Script.written_paths (snd (Script.process w "tos" files))
  = filter (Script.writable w) (map Script.output_path files).
Proof.
  intros w files.
  apply (unwritable_file_does_not_stop_the_run w "tos" files).
  repeat (constructor; [eexists; vm_compute; reflexivity|]). constructor.
Defined.

(** X22.  An exception other than the [PermissionError] of the write ends
    the whole run at the file where it is raised: the files before it have
    been processed and their output stays, the failing file has been opened,
    and no later file is opened or written. *)
Theorem failure_ends_the_run
        (w : Script.World) (varname : string) (pre post : list string)
        (bad : string) (e : Py.exn) :
  Forall (fun file => exists ds, Script.tercile_for w varname file = Py.Ok ds)
         pre ->
  Script.tercile_for w varname bad = Py.Raise e ->
  fst (Script.process w varname (pre ++ bad :: post)) = Script.Raised e /\
  snd (Script.process w varname (pre ++ bad :: post))
  = (snd (Script.process w varname pre) ++ [Script.Open bad])%list.
Proof.
  intros Hpre Hbad.
  destruct (process_app_ok w varname pre (bad :: post) Hpre) as [H1 H2].
  rewrite H1, H2. cbn [Script.process]. unfold Py.Raise in Hbad.
  rewrite Hbad. split; reflexivity.
Qed.

Lemma failure_ends_the_run_witness :
  let w := Script.mkWorld
             (fun file _ =>
                if String.eqb file "b.nc" then Py.Raise Py.KeyError
                else Py.Ok (Regional.gridded [[[ [Some 1%Q; Some 3%Q] ]]]))
             [("areacello"%string, [Some 1%Q; Some 1%Q]);
              ("A"%string, [Some 1%Q; Some 0%Q])]
             (fun _ => true) in
  fst (Script.process w "tos" (["a.nc"%string] ++ "b.nc"%string :: ["c.nc"%string]))
  = Script.Raised Py.KeyError /\
  snd (Script.process w "tos" (["a.nc"%string] ++ "b.nc"%string :: ["c.nc"%string]))
  = (snd (Script.process w "tos" ["a.nc"%string]) ++ [Script.Open "b.nc"])%list.
Proof.
  intros w.
  apply (failure_ends_the_run w "tos" ["a.nc"%string] ["c.nc"%string] "b.nc"
                              Py.KeyError).
  - constructor; [eexists; vm_compute; reflexivity | constructor].
  - reflexivity.
Defined.
